(** * Verification of the semantic checker of [analyze_new.py]

    The development embeds the pycparser-based [SemanticErrorChecker]
    (the same class in [analyze_new.py] and [test2.py]) and, from
    [analyze_new.py], the libclang cursor walk [clang_analysis],
    [preprocess_code] and the entry point [analyze_code]; it then states
    the properties of the specification over them.

    Part 1 holds the definitions, part 2 the general lemmas, part 3 the
    properties of the specification, C1 to C10, and part 4 further
    properties of the code, X1 onwards. *)

From Stdlib Require Import List String Ascii Bool Arith Lia DecimalString.
Import ListNotations.
Local Open Scope string_scope.
Local Open Scope list_scope.

(** * Part 1: definitions *)

(** ** Python values used by the checker *)

(** The [name] attribute of a pycparser [Decl] is a [str] or [None] (an
    unnamed bit-field is a [Decl] with [name=None] and a [TypeDecl] type);
    the checker uses it as a dictionary key as it is. *)
Definition pyname : Type := option string.

Definition pyname_eq_dec (a b : pyname) : {a = b} + {a <> b}.
Proof. decide equality. apply string_dec. Defined.

(** What an f-string field prints for a name. *)
Definition py_str (k : pyname) : string :=
  match k with
  | Some s => s
  | None => "None"
  end.

(** What an f-string field prints for a [len(...)]. *)
Definition str_nat (n : nat) : string :=
  NilEmpty.string_of_uint (Nat.to_uint n).

Definition nl : string := String (ascii_of_nat 10) EmptyString.

(** ** Python dictionaries

    A [dict] keeps its keys in insertion order; assigning to a key that is
    present replaces the value and leaves the key where it is.  That order
    is the order in which [check_unused_vars] reports. *)
Module PyDict.
Section Dict.
Variable V : Type.

Definition dict : Type := list (pyname * V).

Definition empty : dict := [].

(** [k in d] *)
Fixpoint mem (k : pyname) (d : dict) : bool :=
  match d with
  | [] => false
  | (k', _) :: d' => if pyname_eq_dec k k' then true else mem k d'
  end.

(** [d[k]] where [k] may be absent *)
Fixpoint get (k : pyname) (d : dict) : option V :=
  match d with
  | [] => None
  | (k', v) :: d' => if pyname_eq_dec k k' then Some v else get k d'
  end.

(** [d[k] = v] *)
Fixpoint set (k : pyname) (v : V) (d : dict) : dict :=
  match d with
  | [] => [(k, v)]
  | (k', v') :: d' =>
      if pyname_eq_dec k k' then (k', v) :: d' else (k', v') :: set k v d'
  end.

Definition keys (d : dict) : list pyname := map fst d.

End Dict.
Arguments mem {V} k d.
Arguments get {V} k d.
Arguments set {V} k v d.
Arguments keys {V} d.
End PyDict.

(** ** The pycparser syntax tree

    The node classes the checker tells apart get a constructor of their
    own.  Every other class ([FileAST], [FuncDef], [Compound],
    [Assignment], [Constant], [StructRef], ...) has no [visit_] method and
    is only walked through by [generic_visit]: [Other] keeps its class name
    and its children in the order the node yields them.  [FuncDecl.args] is
    a [ParamList] or [None] and [FuncCall.args] an [ExprList] or [None];
    both are kept as the list they wrap.  The children of a [Decl] are
    [type], [init], [bitsize], those of a [FuncDecl] are [args], [type], and
    those of a [FuncCall] are [name], [args], in this order. *)
#[local] Unset Elimination Schemes.
Inductive node : Type :=
| Decl (name : pyname) (type : node) (init : option node) (bitsize : option node)
| TypeDecl (declname : pyname) (type : node)
| FuncDecl (args : option (list node)) (type : node)
| ID (name : string)
| FuncCall (name : node) (args : option (list node))
| Other (class_name : string) (children : list node).
#[local] Set Elimination Schemes.

(** Some of the generic classes, as used in the samples. *)
Definition FileAST (ext : list node) : node := Other "FileAST" ext.
Definition FuncDef (decl body : node) : node := Other "FuncDef" [decl; body].
Definition Compound (block_items : list node) : node := Other "Compound" block_items.
Definition Assignment (lvalue rvalue : node) : node :=
  Other "Assignment" [lvalue; rvalue].
Definition Constant : node := Other "Constant" [].
Definition IdentifierType : node := Other "IdentifierType" [].
Definition Typename (type : node) : node := Other "Typename" [type].
Definition Return (expr : node) : node := Other "Return" [expr].

(** Induction on syntax trees: the children of a node sit in lists and
    options, so the principle carries the property through both. *)
Definition opt_all (P : node -> Prop) (o : option node) : Prop :=
  match o with
  | Some n => P n
  | None => True
  end.

Definition opt_list_all (P : node -> Prop) (o : option (list node)) : Prop :=
  match o with
  | Some ns => Forall P ns
  | None => True
  end.

Section NodeInduction.
Variable P : node -> Prop.
Hypothesis HDecl : forall name type init bitsize,
  P type -> opt_all P init -> opt_all P bitsize ->
  P (Decl name type init bitsize).
Hypothesis HTypeDecl : forall declname type,
  P type -> P (TypeDecl declname type).
Hypothesis HFuncDecl : forall args type,
  opt_list_all P args -> P type -> P (FuncDecl args type).
Hypothesis HID : forall name, P (ID name).
Hypothesis HFuncCall : forall name args,
  P name -> opt_list_all P args -> P (FuncCall name args).
Hypothesis HOther : forall class_name children,
  Forall P children -> P (Other class_name children).

Fixpoint node_ind (n : node) : P n :=
  let all :=
    fix all (cs : list node) : Forall P cs :=
      match cs with
      | [] => @Forall_nil node P
      | c :: cs' => @Forall_cons node P c cs' (node_ind c) (all cs')
      end in
  let opt (o : option node) : opt_all P o :=
    match o return opt_all P o with
    | Some c => node_ind c
    | None => I
    end in
  let opt_list (o : option (list node)) : opt_list_all P o :=
    match o return opt_list_all P o with
    | Some cs => all cs
    | None => I
    end in
  match n with
  | Decl name type init bitsize =>
      HDecl name type init bitsize (node_ind type) (opt init) (opt bitsize)
  | TypeDecl declname type => HTypeDecl declname type (node_ind type)
  | FuncDecl args type => HFuncDecl args type (opt_list args) (node_ind type)
  | ID name => HID name
  | FuncCall name args => HFuncCall name args (node_ind name) (opt_list args)
  | Other class_name children => HOther class_name children (all children)
  end.

End NodeInduction.

(** ** The checker: the three attributes set by [__init__] *)
Record SemanticErrorChecker : Type := mkChecker {
  defined_vars : PyDict.dict bool;
  function_signatures : PyDict.dict nat;
  errors : list string
}.

Definition init_checker : SemanticErrorChecker :=
  mkChecker (PyDict.empty bool) (PyDict.empty nat) [].

Definition set_defined_vars (d : PyDict.dict bool) (s : SemanticErrorChecker)
    : SemanticErrorChecker :=
  mkChecker d (function_signatures s) (errors s).

Definition set_function_signatures (d : PyDict.dict nat)
    (s : SemanticErrorChecker) : SemanticErrorChecker :=
  mkChecker (defined_vars s) d (errors s).

(** [self.errors.append(m)] *)
Definition append_error (m : string) (s : SemanticErrorChecker)
    : SemanticErrorChecker :=
  mkChecker (defined_vars s) (function_signatures s) (errors s ++ [m]).

(** ** The lines the checker produces *)
Definition undeclared_msg (var_name : string) : string :=
  "Error: Variable '" ++ var_name ++ "' used before declaration.".

Definition arity_msg (func_name : string) (actual_args expected_args : nat)
    : string :=
  "Error: Function '" ++ func_name ++ "' called with " ++ str_nat actual_args
    ++ " arguments (expected " ++ str_nat expected_args ++ ").".

Definition unused_msg (var : pyname) : string :=
  "Warning: Variable '" ++ py_str var ++ "' defined but never used.".

Definition parse_failure_msg (e : string) : string :=
  "Error in parsing code with pycparser: " ++ e.

(** ** The visitor methods

    Each method does its own work on the state and then calls
    [self.generic_visit(node)], which [visit] passes as [generic_visit]. *)

(** [len(node.type.args.params) if node.type.args else 0] *)
Definition arg_count (args : option (list node)) : nat :=
  match args with
  | Some params => List.length params
  | None => 0
  end.

(** [len(node.args.exprs) if node.args and node.args.exprs else 0] *)
Definition actual_arg_count (args : option (list node)) : nat :=
  match args with
  | Some exprs => List.length exprs
  | None => 0
  end.

Definition visit_Decl (generic_visit : SemanticErrorChecker -> SemanticErrorChecker)
    (name : pyname) (type : node) (s : SemanticErrorChecker)
    : SemanticErrorChecker :=
  let s :=
    match type with
    | TypeDecl _ _ =>
        set_defined_vars (PyDict.set name false (defined_vars s)) s
    | FuncDecl args _ =>
        set_function_signatures
          (PyDict.set name (arg_count args) (function_signatures s)) s
    | _ => s
    end in
  generic_visit s.

Definition visit_ID (generic_visit : SemanticErrorChecker -> SemanticErrorChecker)
    (var_name : string) (s : SemanticErrorChecker) : SemanticErrorChecker :=
  let s :=
    if PyDict.mem (Some var_name) (defined_vars s)
    then set_defined_vars (PyDict.set (Some var_name) true (defined_vars s)) s
    else append_error (undeclared_msg var_name) s in
  generic_visit s.

Definition visit_FuncCall
    (generic_visit : SemanticErrorChecker -> SemanticErrorChecker)
    (name : node) (args : option (list node)) (s : SemanticErrorChecker)
    : SemanticErrorChecker :=
  let s :=
    match name with
    | ID func_name =>
        match PyDict.get (Some func_name) (function_signatures s) with
        | Some expected_args =>
            let actual_args := actual_arg_count args in
            if Nat.eqb actual_args expected_args then s
            else append_error (arity_msg func_name actual_args expected_args) s
        | None => s
        end
    | _ => s
    end in
  generic_visit s.

(** [NodeVisitor.visit]: dispatch on the class of the node; a class without
    a method is walked by [generic_visit], which visits the children in
    order. *)
Fixpoint visit (s : SemanticErrorChecker) (n : node) {struct n}
    : SemanticErrorChecker :=
  let visit_each :=
    fix visit_each (s : SemanticErrorChecker) (cs : list node) {struct cs} :=
      match cs with
      | [] => s
      | c :: cs' => visit_each (visit s c) cs'
      end in
  let visit_opt (s : SemanticErrorChecker) (c : option node) :=
    match c with
    | Some c' => visit s c'
    | None => s
    end in
  let visit_opt_list (s : SemanticErrorChecker) (c : option (list node)) :=
    match c with
    | Some cs => visit_each s cs
    | None => s
    end in
  match n with
  | Decl name type init bitsize =>
      visit_Decl
        (fun s => visit_opt (visit_opt (visit s type) init) bitsize)
        name type s
  | TypeDecl _ type => visit s type
  | FuncDecl args type => visit (visit_opt_list s args) type
  | ID name => visit_ID (fun s => s) name s
  | FuncCall name args =>
      visit_FuncCall (fun s => visit_opt_list (visit s name) args) name args s
  | Other _ children => visit_each s children
  end.

(** [check_unused_vars] *)
Definition unused_vars (d : PyDict.dict bool) : list pyname :=
  map fst (filter (fun kv => negb (snd kv)) d).

Definition check_unused_vars (s : SemanticErrorChecker) : SemanticErrorChecker :=
  mkChecker (defined_vars s) (function_signatures s)
    (errors s ++ map unused_msg (unused_vars (defined_vars s))).

(** The statements of [check_code] that follow a successful parse, on a
    fresh checker: [self.visit(ast); self.check_unused_vars(); return
    self.errors]. *)
Definition check_ast (ast : node) : list string :=
  errors (check_unused_vars (visit init_checker ast)).

(** [check_code].  The parser is pycparser's; it enters as a function that
    gives the tree or the exception it raises, which [check_code] catches.
    The handler also covers the traversal, which raises nothing here: the
    recursion limit of the interpreter is not modelled. *)
Inductive parse_result : Type :=
| Parsed (ast : node)
| ParseError (e : string).

Definition check_code (parse : string -> parse_result) (code : string)
    : list string :=
  match parse code with
  | Parsed ast => check_ast ast
  | ParseError e => [parse_failure_msg e]
  end.

(** ** Calls that return or raise *)
Inductive outcome (A : Type) : Type :=
| Returned (a : A)
| Raised (e : string).
Arguments Returned {A} a.
Arguments Raised {A} e.

(** ** The libclang pass: [clang_analysis] *)
Inductive CursorKind : Type :=
| DECL_REF_EXPR
| OTHER_KIND (name : string).

(** A libclang cursor with the attributes [traverse_ast] gets to read:
    [kind], [referenced] ([None] when libclang resolves no declaration, and
    otherwise the declaration, kept by its name) and the children.  A
    cursor has no attribute [display_name] (the binding names it
    [displayname]), so the location, which the message reads after the
    name, is never reached. *)
#[local] Unset Elimination Schemes.
Inductive cursor : Type :=
| Cursor (kind : CursorKind) (referenced : option string)
         (get_children : list cursor).
#[local] Set Elimination Schemes.

(** The text of the [AttributeError] that reading [node.display_name]
    raises. *)
Definition display_name_error : string :=
  "'Cursor' object has no attribute 'display_name'".

(** The inner function of [clang_analysis]; the list [errors] it appends to
    is threaded through.  For a [DECL_REF_EXPR] without a referenced
    declaration the message is built first, and building it raises, so
    nothing is appended; the exception passes through every enclosing call
    of the walk. *)
Fixpoint traverse_ast (errors : list string) (c : cursor) {struct c}
    : outcome (list string) :=
  match c with
  | Cursor kind referenced children =>
      match kind, referenced with
      | DECL_REF_EXPR, None => Raised display_name_error
      | _, _ =>
          (fix traverse_each (errors : list string) (cs : list cursor)
               {struct cs} : outcome (list string) :=
             match cs with
             | [] => Returned errors
             | child :: cs' =>
                 match traverse_ast errors child with
                 | Returned errors' => traverse_each errors' cs'
                 | Raised e => Raised e
                 end
             end) errors children
      end
  end.

(** ** The run: [preprocess_code] and [analyze_code]

    A run prints lines and calls the two passes, and a call returns or
    raises.  The log keeps the prints and the calls in the order they
    happen; an exception ends the run where it is raised, since
    [analyze_code] has no handler. *)
Inductive action : Type :=
| Printed (line : string)
| Called_check_code (code : string)
| Called_clang_analysis (file : string).

Definition io (A : Type) : Type := (list action * outcome A)%type.

Definition ret {A : Type} (a : A) : io A := ([], Returned a).

Definition raise {A : Type} (e : string) : io A := ([], Raised e).

Definition bind {A B : Type} (m : io A) (k : A -> io B) : io B :=
  match m with
  | (log, Returned a) => let (log', r) := k a in (log ++ log', r)
  | (log, Raised e) => (log, Raised e)
  end.

Notation "x <- m ;; k" := (bind m (fun x => k))
  (at level 61, m at next level, right associativity).
Notation "m ;;; k" := (bind m (fun _ => k))
  (at level 61, right associativity).

Definition do (a : action) : io unit := ([a], Returned tt).

Definition print (line : string) : io unit := do (Printed line).

(** [for error in errors: print(error)] *)
Fixpoint print_each (lines : list string) : io unit :=
  match lines with
  | [] => ret tt
  | line :: lines' => print line ;;; print_each lines'
  end.

(** What [subprocess.run(..., check=True)] does: it completes with the
    standard output, raises [CalledProcessError] on a non-zero exit, or
    raises another exception (the executable is not found). *)
Inductive run_result : Type :=
| Completed (stdout : string)
| CalledProcessError (stderr : string)
| OtherException (e : string).

(** What [Index.create()] and [index.parse] do together: they give the
    root cursor of the translation unit or raise. *)
Inductive clang_result : Type :=
| TranslationUnit (root : cursor)
| ClangException (e : string).

(** The flags [preprocess_code] passes to [clang]. *)
Definition clang_flags (file_path : string) (include_dirs : list string)
    : list string :=
  ["-fms-extensions"; "-E"; file_path]
    ++ map (fun include_dir => ("-I" ++ include_dir)%string) include_dirs.

(** The directories [analyze_code] passes; the last one is written with
    backslashes in the source, where backslash-b is a backspace. *)
Definition include_dirs : list string :=
  [ "C:/Program Files (x86)/Microsoft Visual Studio/VC/include";
    "C:/Program Files/LLVM/lib/clang/19/include";
    "C:/mingw/include";
    ("C:\Program Files\LLVM"
       ++ String (ascii_of_nat 8) "in\clang-include-fixer.exe")%string ].

Section Run.
Variable subprocess_run : list string -> run_result.
Variable parse : string -> parse_result.
Variable libclang_parse : string -> list string -> clang_result.

Definition preprocess_code (file_path : string) (include_dirs : list string)
    : io (option string) :=
  match subprocess_run ("clang" :: clang_flags file_path include_dirs) with
  | Completed stdout => ret (Some stdout)
  | CalledProcessError stderr =>
      print ("Preprocessing failed: " ++ stderr) ;;; ret None
  | OtherException e => raise e
  end.

Definition clang_analysis (file : string) : io (list string) :=
  do (Called_clang_analysis file) ;;;
  match libclang_parse file ["-Wall"; "-fsyntax-only"] with
  | TranslationUnit root =>
      match traverse_ast [] root with
      | Returned errors => ret errors
      | Raised e => raise e
      end
  | ClangException e => raise e
  end.

Definition analyze_code (c_file : string) : io unit :=
  print ("Analyzing: " ++ c_file ++ nl) ;;;
  print "Preprocessing code for pycparser..." ;;;
  preprocessed_code <- preprocess_code c_file include_dirs ;;
  match preprocessed_code with
  | None => print "Failed to preprocess the code."
  | Some code =>
      print "pycparser Analysis:" ;;;
      do (Called_check_code code) ;;;
      let pycparser_errors := check_code parse code in
      match pycparser_errors with
      | [] => print "No issues found by pycparser."
      | _ => print_each pycparser_errors
      end ;;;
      print (nl ++ "Clang Analysis:") ;;;
      clang_errors <- clang_analysis c_file ;;
      match clang_errors with
      | [] => print "No issues found by Clang."
      | _ => print_each clang_errors
      end ;;;
      print (nl ++ "Analysis Complete." ++ nl)
  end.

End Run.

(** The lines a run printed, in order. *)
Definition printed (log : list action) : list string :=
  flat_map (fun a => match a with Printed line => [line] | _ => [] end) log.

Definition is_pass_call (a : action) : bool :=
  match a with
  | Printed _ => false
  | Called_check_code _ | Called_clang_analysis _ => true
  end.

(** What one of the two result loops of [analyze_code] prints. *)
Definition report_section (none_found : string) (errors : list string)
    : list string :=
  match errors with
  | [] => [none_found]
  | _ => errors
  end.

(** ** The traversal as a sequence of events

    What the checker does to its state depends on four kinds of nodes only.
    [events] lists them in the order [visit] meets them: a [Decl] acts
    before its children are walked, a [FuncCall] checks the arity before it
    walks the callee and the arguments. *)
Inductive event : Type :=
| EDeclVar (name : pyname)
| EDeclFun (name : pyname) (arg_count : nat)
| EUse (var_name : string)
| ECall (func_name : string) (actual_args : nat).

Definition event_eq_dec (a b : event) : {a = b} + {a <> b}.
Proof.
  decide equality;
    try apply Nat.eq_dec; try apply string_dec; apply pyname_eq_dec.
Defined.

Definition decl_events (name : pyname) (type : node) : list event :=
  match type with
  | TypeDecl _ _ => [EDeclVar name]
  | FuncDecl args _ => [EDeclFun name (arg_count args)]
  | _ => []
  end.

Definition call_events (name : node) (args : option (list node)) : list event :=
  match name with
  | ID func_name => [ECall func_name (actual_arg_count args)]
  | _ => []
  end.

Fixpoint events (n : node) {struct n} : list event :=
  let events_each :=
    fix events_each (cs : list node) {struct cs} : list event :=
      match cs with
      | [] => []
      | c :: cs' => events c ++ events_each cs'
      end in
  let events_opt (c : option node) :=
    match c with
    | Some c' => events c'
    | None => []
    end in
  let events_opt_list (c : option (list node)) :=
    match c with
    | Some cs => events_each cs
    | None => []
    end in
  match n with
  | Decl name type init bitsize =>
      decl_events name type ++ events type ++ events_opt init ++ events_opt bitsize
  | TypeDecl _ type => events type
  | FuncDecl args type => events_opt_list args ++ events type
  | ID name => [EUse name]
  | FuncCall name args =>
      call_events name args ++ events name ++ events_opt_list args
  | Other _ children => events_each children
  end.

(** The effect of one event on the state: the work of the method that
    handles the node, without the walk of the children. *)
Definition step (s : SemanticErrorChecker) (e : event) : SemanticErrorChecker :=
  match e with
  | EDeclVar name => set_defined_vars (PyDict.set name false (defined_vars s)) s
  | EDeclFun name n =>
      set_function_signatures (PyDict.set name n (function_signatures s)) s
  | EUse var_name => visit_ID (fun s => s) var_name s
  | ECall func_name actual_args =>
      match PyDict.get (Some func_name) (function_signatures s) with
      | Some expected_args =>
          if Nat.eqb actual_args expected_args then s
          else append_error (arity_msg func_name actual_args expected_args) s
      | None => s
      end
  end.

Definition run (s : SemanticErrorChecker) (es : list event) : SemanticErrorChecker :=
  fold_left step es s.

(** The lines one event adds to [errors]. *)
Definition emitted_by (s : SemanticErrorChecker) (e : event) : list string :=
  match e with
  | EUse x =>
      if PyDict.mem (Some x) (defined_vars s) then [] else [undeclared_msg x]
  | ECall f a =>
      match PyDict.get (Some f) (function_signatures s) with
      | Some expected => if Nat.eqb a expected then [] else [arity_msg f a expected]
      | None => []
      end
  | _ => []
  end.

(** [no_use k es]: no identifier reference to [k] among the events. *)
Definition no_use (k : pyname) (es : list event) : Prop :=
  forall x, k = Some x -> ~ In (EUse x) es.

(** The names [check_unused_vars] reports after the traversal of a tree. *)
Definition reported_unused (ast : node) : list pyname :=
  unused_vars (defined_vars (visit init_checker ast)).

(** The arguments of a call, as the list [generic_visit] walks. *)
Definition call_args (args : option (list node)) : list node :=
  match args with
  | Some exprs => exprs
  | None => []
  end.

(** ** The kinds of diagnostics

    The checker produces plain lines.  A line is a diagnostic of a kind
    when it is built by the format of that kind. *)
Inductive diag_kind : Type :=
| UndeclaredVariable
| ArityMismatch
| UnusedVariable
| ParseFailure.

Inductive has_kind : string -> diag_kind -> Prop :=
| kind_undeclared var_name :
    has_kind (undeclared_msg var_name) UndeclaredVariable
| kind_arity func_name actual_args expected_args :
    has_kind (arity_msg func_name actual_args expected_args) ArityMismatch
| kind_unused var :
    has_kind (unused_msg var) UnusedVariable
| kind_parse e :
    has_kind (parse_failure_msg e) ParseFailure.

(** The errors a traversal can add. *)
Definition traversal_error (m : string) : Prop :=
  has_kind m UndeclaredVariable \/ has_kind m ArityMismatch.

(** The findings of a pass that parsed its source. *)
Definition finding (m : string) : Prop :=
  has_kind m UndeclaredVariable \/ has_kind m ArityMismatch
  \/ has_kind m UnusedVariable.

(** ** Sample programs, as pycparser parses them *)
Module Samples.

Definition int_decl (x : string) : node :=
  Decl (Some x) (TypeDecl (Some x) IdentifierType) None None.

(** The parameter list of [f(void)]: one unnamed [Typename]. *)
Definition void_params : option (list node) :=
  Some [Typename (TypeDecl None IdentifierType)].

Definition func_def (f : string) (params : option (list node))
    (block_items : list node) : node :=
  FuncDef
    (Decl (Some f) (FuncDecl params (TypeDecl (Some f) IdentifierType)) None None)
    (Compound block_items).

(** [int main(void) { int x; return 0; }] *)
Definition scenario_A : node :=
  FileAST [func_def "main" void_params [int_decl "x"; Return Constant]].

(** [void f(int a) { } void g(void) { f(1, 2); }] *)
Definition scenario_B : node :=
  FileAST
    [ func_def "f" (Some [int_decl "a"]) [];
      func_def "g" void_params
        [FuncCall (ID "f") (Some [Constant; Constant])] ].

(** [void g(void) { y = 5; }] *)
Definition scenario_C : node :=
  FileAST [func_def "g" void_params [Assignment (ID "y") Constant]].

(** [void f(void) { int x; } void g(void) { x = 5; }]: the only declaration
    of [x] is in the block of [f], the reference in the block of [g]. *)
Definition sibling_scopes : node :=
  FileAST
    [ func_def "f" void_params [int_decl "x"];
      func_def "g" void_params [Assignment (ID "x") Constant] ].

(** [void g(void) { h(); }]: [h] is declared nowhere. *)
Definition unresolved_call : node :=
  FileAST [func_def "g" void_params [FuncCall (ID "h") None]].


(** [void g(void) { int x; y = 5; }] *)
Definition unused_then_undeclared : node :=
  FileAST
    [func_def "g" void_params [int_decl "x"; Assignment (ID "y") Constant]].

End Samples.

(** A run on the source [void g(void) { a = 1; b = 2; }] as pycparser
    parses it.  libclang reports both names and leaves the two statements
    out of its tree, which has the function and its empty body only. *)
Module TwoFindings.

Definition code : string := "void g(void) { a = 1; b = 2; }".

Definition ast : node :=
  FileAST
    [ Samples.func_def "g" Samples.void_params
        [ Assignment (ID "a") Constant; Assignment (ID "b") Constant ] ].

Definition root : cursor :=
  Cursor (OTHER_KIND "TRANSLATION_UNIT") None
    [ Cursor (OTHER_KIND "FUNCTION_DECL") None
        [ Cursor (OTHER_KIND "COMPOUND_STMT") None [] ] ].

Definition subprocess_run (argv : list string) : run_result := Completed code.
Definition parse (code : string) : parse_result := Parsed ast.
Definition libclang_parse (file : string) (args : list string) : clang_result :=
  TranslationUnit root.

End TwoFindings.

(** A run on the source

      1: void g(void) {
      2:   int x;
      3:   y = 5;
      4: }

    as pycparser parses it.  The tree of libclang has the declaration of
    [x] and leaves the statement with the unknown [y] out. *)
Module WarningAfterError.

Definition code : string :=
  "void g(void) {" ++ nl ++ "  int x;" ++ nl ++ "  y = 5;" ++ nl ++ "}" ++ nl.

Definition ast : node := Samples.unused_then_undeclared.

Definition root : cursor :=
  Cursor (OTHER_KIND "TRANSLATION_UNIT") None
    [ Cursor (OTHER_KIND "FUNCTION_DECL") None
        [ Cursor (OTHER_KIND "COMPOUND_STMT") None
            [ Cursor (OTHER_KIND "DECL_STMT") None
                [ Cursor (OTHER_KIND "VAR_DECL") None [] ] ] ] ].

Definition subprocess_run (argv : list string) : run_result := Completed code.
Definition parse (code : string) : parse_result := Parsed ast.
Definition libclang_parse (file : string) (args : list string) : clang_result :=
  TranslationUnit root.

End WarningAfterError.

(** ** The symbol table of the specification, section 4.1

    A stack of scopes, innermost first, with the four operations as the
    specification words them; kept for comparison with the single table of
    the checker. *)
Module ScopedSpec.

Definition scope : Type := list pyname.
Definition table : Type := list scope.

Definition file_scope : table := [[]].
Definition enterScope (t : table) : table := [] :: t.
Definition exitScope (t : table) : table := tl t.

Definition declare (name : pyname) (t : table) : table :=
  match t with
  | current :: enclosing => (name :: current) :: enclosing
  | [] => [[name]]
  end.

Definition resolve (name : pyname) (t : table) : bool :=
  existsb
    (existsb (fun k => if pyname_eq_dec name k then true else false)) t.

End ScopedSpec.

(** A source location as the specification has it: file, line, column. *)
Record SourceLocation : Type := mkLocation {
  loc_file : string;
  loc_line : nat;
  loc_column : nat
}.

(** ** The report order of the specification, section 4.5

    Diagnostics with a location and an origin, ordered by file, line and
    column, then origin, then insertion; kept for comparison with the order
    in which [analyze_code] prints. *)
Module SpecMerger.

Inductive origin : Type := internal | external.

Record Diagnostic : Type := mkDiagnostic {
  text : string;
  location : SourceLocation;
  from : origin
}.

Definition origin_rank (o : origin) : nat :=
  match o with internal => 0 | external => 1 end.

(** [comes_before a b]: the key of [a] is strictly smaller. *)
Definition comes_before (a b : Diagnostic) : bool :=
  match String.compare (loc_file (location a)) (loc_file (location b)) with
  | Lt => true
  | Gt => false
  | Eq =>
      if Nat.ltb (loc_line (location a)) (loc_line (location b)) then true
      else if Nat.ltb (loc_line (location b)) (loc_line (location a)) then false
      else if Nat.ltb (loc_column (location a)) (loc_column (location b)) then true
      else if Nat.ltb (loc_column (location b)) (loc_column (location a)) then false
      else Nat.ltb (origin_rank (from a)) (origin_rank (from b))
  end.

(** Insertion after every diagnostic whose key is not larger: equal keys
    stay in insertion order. *)
Fixpoint insert (d : Diagnostic) (r : list Diagnostic) : list Diagnostic :=
  match r with
  | [] => [d]
  | d' :: r' => if comes_before d d' then d :: r else d' :: insert d r'
  end.

Definition merge (internal_list external_list : list Diagnostic)
    : list Diagnostic :=
  fold_left (fun r d => insert d r) (internal_list ++ external_list) [].

End SpecMerger.

(** The findings of the internal pass on [WarningAfterError], in the order
    the pass returns them, with the location the specification gives them:
    the reference of [y] on line 3, the declaration site of [x] on line 2. *)
Definition warning_after_error_internal : list SpecMerger.Diagnostic :=
  [ SpecMerger.mkDiagnostic (undeclared_msg "y")
      (mkLocation "t.c" 3 3) SpecMerger.internal;
    SpecMerger.mkDiagnostic (unused_msg (Some "x"))
      (mkLocation "t.c" 2 7) SpecMerger.internal ].

(** ** Further definitions for the properties of part 4 *)

(** The lines a sequence of events adds to [errors], from the state the
    events start in. *)
Fixpoint emitted (s : SemanticErrorChecker) (es : list event) : list string :=
  match es with
  | [] => []
  | e :: es' => emitted_by s e ++ emitted (step s e) es'
  end.

(** The names of the plain-variable declarations, in traversal order. *)
Definition declared_vars (es : list event) : list pyname :=
  flat_map (fun e => match e with EDeclVar k => [k] | _ => [] end) es.

(** A list without its repetitions, each element where it first occurs. *)
Definition first_occurrences (l : list pyname) : list pyname :=
  rev (nodup pyname_eq_dec (rev l)).

(** The number of references to [x] that come before the first
    plain-variable declaration of [x]. *)
Fixpoint uses_before_decl (x : string) (es : list event) : nat :=
  match es with
  | [] => 0
  | EUse y :: es' =>
      (if string_dec x y then 1 else 0) + uses_before_decl x es'
  | EDeclVar k :: es' =>
      if pyname_eq_dec k (Some x) then 0 else uses_before_decl x es'
  | _ :: es' => uses_before_decl x es'
  end.

(** The parameter count of the last function declaration of [k] among the
    events, if there is one. *)
Definition stored_count (k : pyname) (es : list event) : option nat :=
  fold_left
    (fun acc e =>
       match e with
       | EDeclFun k' n => if pyname_eq_dec k k' then Some n else acc
       | _ => acc
       end)
    es None.

(** [check_code] as the method it is, on the checker it is called on: the
    checker afterwards and the list returned.  When the parser raises, the
    checker is as before the call. *)
Definition check_code_on (parse : string -> parse_result)
    (s : SemanticErrorChecker) (code : string)
    : SemanticErrorChecker * list string :=
  match parse code with
  | Parsed ast =>
      let s' := check_unused_vars (visit s ast) in (s', errors s')
  | ParseError e => (s, [parse_failure_msg e])
  end.

(** Whether the tree holds a [DECL_REF_EXPR] cursor without a referenced
    declaration. *)
Fixpoint has_unresolved_ref (c : cursor) {struct c} : bool :=
  match c with
  | Cursor kind referenced children =>
      match kind, referenced with
      | DECL_REF_EXPR, None => true
      | _, _ =>
          (fix any (cs : list cursor) {struct cs} : bool :=
             match cs with
             | [] => false
             | child :: cs' => has_unresolved_ref child || any cs'
             end) children
      end
  end.

Section CursorInduction.
Variable P : cursor -> Prop.
Hypothesis HCursor : forall kind referenced children,
  Forall P children -> P (Cursor kind referenced children).

Fixpoint cursor_ind (c : cursor) : P c :=
  match c with
  | Cursor kind referenced children =>
      HCursor kind referenced children
        ((fix all (cs : list cursor) : Forall P cs :=
            match cs with
            | [] => @Forall_nil cursor P
            | c' :: cs' => @Forall_cons cursor P c' cs' (cursor_ind c') (all cs')
            end) children)
  end.

End CursorInduction.

(** The entry point of [analyze_new.py]: [sys.argv] holds the script name
    and the arguments. *)
Definition main (subprocess_run : list string -> run_result)
    (parse : string -> parse_result)
    (libclang_parse : string -> list string -> clang_result)
    (argv : list string) : io unit :=
  match argv with
  | [_; c_file] => analyze_code subprocess_run parse libclang_parse c_file
  | _ => print "Usage: python analyze.py <file.c>"
  end.

(** ** The functions of [test2.py] outside the checker

    [pycparser_analysis] reads the file and parses it, [clang_analysis]
    runs [clang] through [os.popen] and reads its standard output; both
    catch every exception.  Reading the file and running the command enter
    as functions that return the text or the exception raised. *)
Module Test2.

Definition dq : string := String (ascii_of_nat 34) EmptyString.

Definition clang_command (file_path : string) : string :=
  "clang -I " ++ dq ++ "C:\MinGW\include" ++ dq ++ " -I " ++ dq
    ++ "C:\MinGW\lib\gcc\x86_64-w64-mingw32\6.3.0" ++ dq
    ++ " -fsyntax-only " ++ dq ++ file_path ++ dq.

Section Run.
Variable read_file : string -> outcome string.
Variable parse : string -> parse_result.
Variable popen_read : string -> outcome string.

Definition pycparser_analysis (file_path : string) : io unit :=
  match read_file file_path with
  | Returned code =>
      match parse code with
      | Parsed _ => print " Lexical and Syntax Check: No errors found."
      | ParseError e => print (" Lexical/Syntax Error: " ++ e)
      end
  | Raised e => print (" Lexical/Syntax Error: " ++ e)
  end.

Definition clang_analysis (file_path : string) : io unit :=
  match popen_read (clang_command file_path) with
  | Returned result =>
      match result with
      | EmptyString => print " Semantic Check: No errors found."
      | _ => print " Semantic Check Errors:" ;;; print result
      end
  | Raised e => print ("Error running clang: " ++ e)
  end.

Definition analyze_code (c_file : string) : io unit :=
  print ("Analyzing: " ++ c_file ++ nl) ;;;
  print "Checking for lexical and syntax errors using pycparser:" ;;;
  pycparser_analysis c_file ;;;
  print (nl ++ "Checking for semantic errors using clang:") ;;;
  clang_analysis c_file.

(** The entry point; [sys.exit(1)] raises [SystemExit]. *)
Definition main (argv : list string) : io unit :=
  match argv with
  | [_; c_file] => analyze_code c_file
  | _ => print "Usage: python test.py <file_path>" ;;; raise "SystemExit: 1"
  end.

End Run.
End Test2.

(** * Part 2: general lemmas *)

(** ** Dictionaries *)
Module PyDictFacts.
Import PyDict.
Section Facts.
Context {V : Type}.
Implicit Types (k : pyname) (v : V) (d : dict V).

Lemma mem_get k d : mem k d = true <-> get k d <> None.
Proof.
  induction d as [|[k' v'] d IH]; cbn.
  - split; [discriminate | congruence].
  - destruct (pyname_eq_dec k k'); [split; [discriminate | reflexivity] | exact IH].
Qed.

Lemma mem_false_get k d : mem k d = false <-> get k d = None.
Proof.
  induction d as [|[k' v'] d IH]; cbn.
  - split; reflexivity.
  - destruct (pyname_eq_dec k k'); [split; discriminate | exact IH].
Qed.

Lemma get_set_same k v d : get k (set k v d) = Some v.
Proof.
  induction d as [|[k' v'] d IH]; cbn.
  - destruct (pyname_eq_dec k k); congruence.
  - destruct (pyname_eq_dec k k') as [E|N]; cbn;
      destruct (pyname_eq_dec k k'); congruence.
Qed.

Lemma get_set_other k k' v d : k <> k' -> get k (set k' v d) = get k d.
Proof.
  intro N. induction d as [|[k0 v0] d IH]; cbn.
  - destruct (pyname_eq_dec k k'); congruence.
  - destruct (pyname_eq_dec k' k0) as [E|N']; cbn.
    + subst k0. destruct (pyname_eq_dec k k'); congruence.
    + destruct (pyname_eq_dec k k0); congruence.
Qed.

Lemma mem_set_same k v d : mem k (set k v d) = true.
Proof. apply mem_get. rewrite get_set_same. discriminate. Qed.

Lemma mem_set_other k k' v d : k <> k' -> mem k (set k' v d) = mem k d.
Proof.
  intro N. destruct (mem k d) eqn:E.
  - apply mem_get. rewrite get_set_other by assumption. now apply mem_get.
  - apply mem_false_get. rewrite get_set_other by assumption.
    now apply mem_false_get.
Qed.

Lemma mem_In_keys k d : mem k d = true <-> In k (keys d).
Proof.
  induction d as [|[k' v'] d IH]; cbn.
  - split; [discriminate | tauto].
  - destruct (pyname_eq_dec k k') as [E|N].
    + split; auto.
    + rewrite IH. split; [auto | intros [E|H]; [congruence | assumption]].
Qed.

(** Assigning to a key that is present keeps the order of the keys; a new
    key goes to the end. *)
Lemma keys_set k v d :
  keys (set k v d) = if mem k d then keys d else keys d ++ [k].
Proof.
  unfold keys. induction d as [|[k' v'] d IH]; cbn; [reflexivity|].
  destruct (pyname_eq_dec k k'); cbn; [reflexivity|].
  rewrite IH. destruct (mem k d); reflexivity.
Qed.

Lemma NoDup_keys_set k v d : NoDup (keys d) -> NoDup (keys (set k v d)).
Proof.
  intro H. rewrite keys_set. destruct (mem k d) eqn:E; [assumption|].
  apply NoDup_app; [assumption | repeat constructor; intros [] | ].
  intros x Hx [<-|[]].
  apply mem_In_keys in Hx. congruence.
Qed.

Lemma In_get k v d : NoDup (keys d) -> (In (k, v) d <-> get k d = Some v).
Proof.
  induction d as [|[k' v'] d IH]; cbn; intro ND.
  - split; [tauto | discriminate].
  - inversion ND as [|? ? Hnotin ND']; subst.
    destruct (pyname_eq_dec k k') as [E|N].
    + subst k'. split.
      * intros [H|H]; [congruence|]. exfalso. apply Hnotin.
        change k with (fst (k, v)). now apply in_map.
      * intros [= ->]. now left.
    + rewrite <- (IH ND').
      split; [intros [H|H]; [congruence | assumption] | auto].
Qed.

End Facts.
End PyDictFacts.
Import PyDictFacts.

Lemma in_unused_vars (k : pyname) (d : PyDict.dict bool) :
  In k (unused_vars d) <-> In (k, false) d.
Proof.
  unfold unused_vars. rewrite in_map_iff. split.
  - intros [[k' b] [E H]]. cbn in E. subst k'.
    apply filter_In in H. destruct H as [H Hb]. cbn in Hb.
    destruct b; [discriminate | assumption].
  - intro H. exists (k, false). split; [reflexivity|].
    apply filter_In. split; [assumption | reflexivity].
Qed.

Lemma NoDup_unused_vars (d : PyDict.dict bool) :
  NoDup (PyDict.keys d) -> NoDup (unused_vars d).
Proof.
  unfold unused_vars, PyDict.keys.
  induction d as [|[k b] d IH]; cbn; intro ND; [constructor|].
  inversion ND as [|? ? Hnotin ND']; subst.
  destruct b; cbn; [exact (IH ND')|].
  constructor; [|exact (IH ND')].
  intro Hin. apply Hnotin. apply in_map_iff in Hin.
  destruct Hin as [kv [E Hkv]]. apply filter_In in Hkv.
  rewrite <- E. apply in_map. exact (proj1 Hkv).
Qed.

(** ** Kinds of diagnostics

    The formats start differently, so a warning is never an error of the
    traversal and a parse failure is none of the three findings. *)
Lemma unused_not_error (m : string) :
  has_kind m UnusedVariable -> ~ traversal_error m.
Proof.
  intros Hw [He|He]; inversion Hw as [| |k Hk|]; subst;
    inversion He as [x Hx|f a e Hx| |]; cbn in Hx; discriminate Hx.
Qed.

Lemma parse_failure_not_finding (m : string) :
  has_kind m ParseFailure -> ~ finding m.
Proof.
  intros Hp [He|[He|He]]; inversion Hp as [| | |e0 H0]; subst;
    inversion He as [x Hx|f a e Hx|k Hx|]; cbn in Hx; discriminate Hx.
Qed.

(** ** The traversal is the fold of [step] over the events *)

Lemma run_app (s : SemanticErrorChecker) (es es' : list event) :
  run s (es ++ es') = run (run s es) es'.
Proof. apply fold_left_app. Qed.

Lemma run_cons (s : SemanticErrorChecker) (e : event) (es : list event) :
  run s (e :: es) = run (step s e) es.
Proof. reflexivity. Qed.

Lemma visit_Decl_events generic_visit name type s :
  visit_Decl generic_visit name type s
  = generic_visit (run s (decl_events name type)).
Proof. destruct type; reflexivity. Qed.

Lemma visit_FuncCall_events generic_visit name args s :
  visit_FuncCall generic_visit name args s
  = generic_visit (run s (call_events name args)).
Proof. destruct name; reflexivity. Qed.

Lemma visit_each_events (cs : list node) :
  Forall (fun n => forall s, visit s n = run s (events n)) cs ->
  forall s,
    (fix visit_each (s : SemanticErrorChecker) (cs : list node) {struct cs} :=
       match cs with
       | [] => s
       | c :: cs' => visit_each (visit s c) cs'
       end) s cs
    = run s ((fix events_each (cs : list node) {struct cs} : list event :=
                match cs with
                | [] => []
                | c :: cs' => events c ++ events_each cs'
                end) cs).
Proof.
  induction 1 as [|c cs Hc _ IH]; intro s; [reflexivity|].
  rewrite run_app, <- Hc. apply IH.
Qed.

Lemma visit_events (n : node) : forall s, visit s n = run s (events n).
Proof.
  induction n as [name type init bitsize IHt IHi IHb | declname type IHt
                 | args type IHa IHt | name | name args IHn IHa
                 | class_name children IHc] using node_ind; intro s.
  - cbn [visit events]. rewrite visit_Decl_events, !run_app, <- IHt.
    destruct init as [i|], bitsize as [b|]; cbn in *;
      rewrite <- ?IHi, <- ?IHb; reflexivity.
  - cbn [visit events]. apply IHt.
  - cbn [visit events]. rewrite run_app, <- IHt.
    destruct args as [ps|]; [|reflexivity].
    f_equal. apply visit_each_events, IHa.
  - reflexivity.
  - cbn [visit events]. rewrite visit_FuncCall_events, !run_app, <- IHn.
    destruct args as [xs|]; [|reflexivity].
    apply visit_each_events, IHa.
  - cbn [visit events]. apply visit_each_events, IHc.
Qed.

Lemma visit_each_fold (cs : list node) : forall s,
  (fix visit_each (s : SemanticErrorChecker) (cs : list node) {struct cs} :=
     match cs with
     | [] => s
     | c :: cs' => visit_each (visit s c) cs'
     end) s cs = fold_left visit cs s.
Proof. induction cs as [|c cs IH]; intro s; [reflexivity | apply IH]. Qed.

(** The visit of a call: the arity check, then the callee, then the
    arguments. *)
Lemma visit_call (s : SemanticErrorChecker) (name : node)
    (args : option (list node)) :
  visit s (FuncCall name args)
  = fold_left visit (call_args args)
      (visit (visit_FuncCall (fun s => s) name args s) name).
Proof.
  cbn [visit]. unfold visit_FuncCall.
  destruct args as [exprs|]; [apply visit_each_fold | reflexivity].
Qed.

(** ** What the traversal does to the state *)

Lemma step_defined_vars (s : SemanticErrorChecker) (e : event) :
  defined_vars (step s e) =
  match e with
  | EDeclVar k => PyDict.set k false (defined_vars s)
  | EUse x =>
      if PyDict.mem (Some x) (defined_vars s)
      then PyDict.set (Some x) true (defined_vars s)
      else defined_vars s
  | _ => defined_vars s
  end.
Proof.
  destruct e as [k|k n|x|f a]; cbn; try reflexivity.
  - unfold visit_ID. destruct (PyDict.mem _ _); reflexivity.
  - destruct (PyDict.get _ _) as [e|]; [|reflexivity].
    destruct (Nat.eqb a e); reflexivity.
Qed.

Lemma step_errors (s : SemanticErrorChecker) (e : event) :
  errors (step s e) = errors s ++ emitted_by s e.
Proof.
  destruct e as [k|k n|x|f a]; cbn; try (symmetry; apply app_nil_r).
  - unfold visit_ID. destruct (PyDict.mem _ _); cbn;
      [symmetry; apply app_nil_r | reflexivity].
  - destruct (PyDict.get _ _) as [e|]; [|symmetry; apply app_nil_r].
    destruct (Nat.eqb a e); cbn; [symmetry; apply app_nil_r | reflexivity].
Qed.

Lemma emitted_by_traversal_error (s : SemanticErrorChecker) (e : event) :
  Forall traversal_error (emitted_by s e).
Proof.
  destruct e as [k|k n|x|f a]; cbn; try constructor.
  - destruct (PyDict.mem _ _); repeat constructor.
  - destruct (PyDict.get _ _) as [e|]; [|constructor].
    destruct (Nat.eqb a e); constructor; [|constructor].
    right. constructor.
Qed.

(** A traversal only appends to [errors], and what it appends are
    undeclared-variable and arity errors. *)
Lemma run_errors (es : list event) : forall s,
  exists l, errors (run s es) = errors s ++ l /\ Forall traversal_error l.
Proof.
  induction es as [|e es IH]; intro s.
  - exists []. split; [symmetry; apply app_nil_r | constructor].
  - destruct (IH (step s e)) as [l [El Fl]].
    exists (emitted_by s e ++ l). split.
    + rewrite run_cons, El, step_errors, app_assoc. reflexivity.
    + apply Forall_app. split; [apply emitted_by_traversal_error | exact Fl].
Qed.

Lemma fold_visit_errors (cs : list node) : forall s,
  exists l, errors (fold_left visit cs s) = errors s ++ l
            /\ Forall traversal_error l.
Proof.
  induction cs as [|c cs IH]; intro s; cbn.
  - exists []. split; [symmetry; apply app_nil_r | constructor].
  - destruct (IH (visit s c)) as [l [El Fl]].
    rewrite visit_events in El.
    destruct (run_errors (events c) s) as [l0 [E0 F0]].
    exists (l0 ++ l). rewrite visit_events, El, E0, app_assoc.
    split; [reflexivity | apply Forall_app; split; assumption].
Qed.

Lemma run_NoDup_keys (es : list event) : forall s,
  NoDup (PyDict.keys (defined_vars s)) ->
  NoDup (PyDict.keys (defined_vars (run s es))).
Proof.
  induction es as [|e es IH]; intros s ND; [assumption|].
  rewrite run_cons. apply IH. rewrite step_defined_vars.
  destruct e as [k|k n|x|f a]; try assumption.
  - now apply NoDup_keys_set.
  - destruct (PyDict.mem _ _); [now apply NoDup_keys_set | assumption].
Qed.

(** The cases of [mem_run] in which the event leaves the entry alone. *)
Ltac entry_untouched :=
  split;
  [ intros [H|H]; auto
  | intros [H|[H|H]]; auto; first [discriminate H | congruence] ].

(** A name has an entry after a traversal exactly when it had one before or
    a plain-variable declaration of it was visited: entries are never
    removed, whatever block the declaration sits in. *)
Lemma mem_run (k : pyname) (es : list event) : forall s,
  PyDict.mem k (defined_vars (run s es)) = true <->
  PyDict.mem k (defined_vars s) = true \/ In (EDeclVar k) es.
Proof.
  induction es as [|e es IH]; intro s.
  - cbn. tauto.
  - rewrite run_cons, IH, step_defined_vars. cbn [In].
    destruct e as [k'|k' n|x|f a].
    + destruct (pyname_eq_dec k k') as [->|N].
      * rewrite mem_set_same. tauto.
      * rewrite mem_set_other by assumption. entry_untouched.
    + entry_untouched.
    + destruct (PyDict.mem (Some x) (defined_vars s)) eqn:E.
      * destruct (pyname_eq_dec k (Some x)) as [->|N].
        -- rewrite mem_set_same, E. tauto.
        -- rewrite mem_set_other by assumption. entry_untouched.
      * entry_untouched.
    + entry_untouched.
Qed.

Lemma mem_init_run (k : pyname) (es : list event) :
  PyDict.mem k (defined_vars (run init_checker es)) = true <->
  In (EDeclVar k) es.
Proof.
  rewrite mem_run. cbn.
  split; [intros [H|H]; [discriminate | assumption] | auto].
Qed.

Lemma no_use_nil (k : pyname) : no_use k [].
Proof. intros x _ []. Qed.

Lemma no_use_cons (k : pyname) (e : event) (es : list event) :
  no_use k (e :: es) <-> (forall x, k = Some x -> e <> EUse x) /\ no_use k es.
Proof.
  unfold no_use. cbn. split.
  - intro H. split; intros x Hk Hx; apply (H x Hk); auto.
  - intros [H1 H2] x Hk [Hx|Hx]; [apply (H1 x Hk Hx) | apply (H2 x Hk Hx)].
Qed.

(** A flag that is false stays false as long as the name is not referenced
    (a further declaration of the name sets it to false again). *)
Lemma get_run_no_use (k : pyname) (es : list event) : forall s,
  PyDict.get k (defined_vars s) = Some false ->
  no_use k es ->
  PyDict.get k (defined_vars (run s es)) = Some false.
Proof.
  induction es as [|e es IH]; intros s Hs Hn; [assumption|].
  apply no_use_cons in Hn. destruct Hn as [He Hn].
  rewrite run_cons. apply IH; [|assumption]. rewrite step_defined_vars.
  destruct e as [k'|k' n|x|f a]; try assumption.
  - destruct (pyname_eq_dec k k') as [->|N].
    + apply get_set_same.
    + rewrite get_set_other; assumption.
  - destruct (PyDict.mem _ _); [|assumption].
    rewrite get_set_other; [assumption|].
    intro E. apply (He x E). reflexivity.
Qed.

(** The cases of [get_run_false_inv] in which the event leaves the flag
    alone. *)
Ltac flag_untouched :=
  left; split; [assumption|]; apply no_use_cons; split; [|assumption].

(** Conversely a flag that is false at the end was false at the start and
    never touched, or was set by a declaration that no reference follows. *)
Lemma get_run_false_inv (k : pyname) (es : list event) : forall s,
  PyDict.get k (defined_vars (run s es)) = Some false ->
  (PyDict.get k (defined_vars s) = Some false /\ no_use k es)
  \/ exists pre post, es = pre ++ EDeclVar k :: post /\ no_use k post.
Proof.
  induction es as [|e es IH]; intros s H.
  - left. split; [assumption | apply no_use_nil].
  - rewrite run_cons in H.
    destruct (IH _ H) as [[Hs Hn]|[pre [post [E Hn]]]].
    + rewrite step_defined_vars in Hs.
      destruct e as [k'|k' n|x|f a].
      * destruct (pyname_eq_dec k k') as [->|N].
        -- right. exists [], es. split; [reflexivity | assumption].
        -- rewrite get_set_other in Hs by assumption.
           flag_untouched. discriminate.
      * flag_untouched. discriminate.
      * destruct (PyDict.mem (Some x) (defined_vars s)) eqn:M.
        -- destruct (pyname_eq_dec k (Some x)) as [->|N].
           ++ rewrite get_set_same in Hs. discriminate.
           ++ rewrite get_set_other in Hs by assumption.
              flag_untouched. intros y -> [= ->]. now apply N.
        -- destruct (pyname_eq_dec k (Some x)) as [->|N].
           ++ apply mem_false_get in M. congruence.
           ++ flag_untouched. intros y -> [= ->]. now apply N.
      * flag_untouched. discriminate.
    + right. exists (e :: pre), post. split; [now rewrite E | assumption].
Qed.

(** ** The result of [check_ast] *)

Lemma check_ast_split (ast : node) :
  check_ast ast =
  errors (visit init_checker ast) ++ map unused_msg (reported_unused ast).
Proof. reflexivity. Qed.

Lemma init_NoDup_keys : NoDup (PyDict.keys (defined_vars init_checker)).
Proof. constructor. Qed.

(** A name is reported exactly when a plain-variable declaration of it is
    followed, in traversal order, by no reference to it. *)
Lemma reported_unused_iff (ast : node) (k : pyname) :
  In k (reported_unused ast) <->
  exists pre post, events ast = pre ++ EDeclVar k :: post /\ no_use k post.
Proof.
  unfold reported_unused. rewrite visit_events, in_unused_vars.
  rewrite In_get by (apply run_NoDup_keys, init_NoDup_keys).
  split.
  - intro H. apply get_run_false_inv in H.
    destruct H as [[H _]|H]; [discriminate H | exact H].
  - intros [pre [post [E Hn]]]. rewrite E, run_app, run_cons.
    apply get_run_no_use; [|assumption].
    rewrite step_defined_vars. apply get_set_same.
Qed.

Lemma NoDup_reported_unused (ast : node) : NoDup (reported_unused ast).
Proof.
  unfold reported_unused. rewrite visit_events.
  apply NoDup_unused_vars, run_NoDup_keys, init_NoDup_keys.
Qed.

(** The result is the errors of the traversal followed by the warnings. *)
Lemma check_ast_errors_then_warnings (ast : node) :
  exists errs warns,
    check_ast ast = errs ++ warns
    /\ Forall traversal_error errs
    /\ Forall (fun m => has_kind m UnusedVariable) warns.
Proof.
  destruct (run_errors (events ast) init_checker) as [l [E F]].
  exists l, (map unused_msg (reported_unused ast)).
  split; [|split].
  - rewrite check_ast_split, visit_events, E. reflexivity.
  - exact F.
  - apply Forall_forall. intros m Hm. apply in_map_iff in Hm.
    destruct Hm as [k [<- _]]. constructor.
Qed.

Lemma check_ast_findings (ast : node) : Forall finding (check_ast ast).
Proof.
  destruct (check_ast_errors_then_warnings ast) as [errs [warns [E [Fe Fw]]]].
  rewrite E. apply Forall_app. split.
  - eapply Forall_impl; [|exact Fe]. intros m [H|H]; [left | right; left]; exact H.
  - eapply Forall_impl; [|exact Fw]. intros m H. right. right. exact H.
Qed.

(** ** The log of a run *)

Lemma print_each_log (lines : list string) :
  print_each lines = (map Printed lines, Returned tt).
Proof.
  induction lines as [|line lines IH]; [reflexivity|].
  cbn. rewrite IH. reflexivity.
Qed.

Lemma print_section_log (none_found : string) (lines : list string) :
  match lines with
  | [] => print none_found
  | _ => print_each lines
  end = (map Printed (report_section none_found lines), Returned tt).
Proof.
  destruct lines as [|line lines]; [reflexivity | apply print_each_log].
Qed.

Lemma printed_app (l l' : list action) :
  printed (l ++ l') = printed l ++ printed l'.
Proof. apply flat_map_app. Qed.

Lemma printed_map_Print (lines : list string) :
  printed (map Printed lines) = lines.
Proof.
  induction lines as [|line lines IH]; [reflexivity|].
  cbn. f_equal. exact IH.
Qed.

Lemma printed_Print (line : string) (log : list action) :
  printed (Printed line :: log) = line :: printed log.
Proof. reflexivity. Qed.

Lemma printed_call (a : action) (log : list action) :
  is_pass_call a = true -> printed (a :: log) = printed log.
Proof. destruct a; [discriminate | reflexivity | reflexivity]. Qed.

(** ** Strings and the formats *)

Lemma append_inj_l (a b c : string) : (a ++ b = a ++ c)%string -> b = c.
Proof.
  induction a as [|ch a IH]; cbn; intro H; [exact H|].
  injection H as H. exact (IH H).
Qed.

Lemma string_length_append (a b : string) :
  String.length (a ++ b) = String.length a + String.length b.
Proof. induction a as [|ch a IH]; cbn; [reflexivity | now rewrite IH]. Qed.

Lemma append_inj_r (a b s : string) : (a ++ s = b ++ s)%string -> a = b.
Proof.
  revert b. induction a as [|ch a IH]; intros [|ch' b] H; cbn in H.
  - reflexivity.
  - exfalso. apply (f_equal String.length) in H. cbn in H.
    rewrite string_length_append in H. lia.
  - exfalso. apply (f_equal String.length) in H. cbn in H.
    rewrite string_length_append in H. lia.
  - injection H as -> H. f_equal. exact (IH b H).
Qed.

Lemma undeclared_msg_inj (x y : string) :
  undeclared_msg x = undeclared_msg y -> x = y.
Proof.
  unfold undeclared_msg. intro H.
  apply append_inj_l in H. exact (append_inj_r _ _ _ H).
Qed.

Lemma arity_not_undeclared (f : string) (a e : nat) (x : string) :
  arity_msg f a e <> undeclared_msg x.
Proof. intro H. cbn in H. discriminate H. Qed.

Lemma unused_not_undeclared (k : pyname) (x : string) :
  unused_msg k <> undeclared_msg x.
Proof. intro H. cbn in H. discriminate H. Qed.

(** ** The lines of a traversal, event by event *)

Lemma run_errors_emitted (es : list event) : forall s,
  errors (run s es) = errors s ++ emitted s es.
Proof.
  induction es as [|e es IH]; intro s; cbn [emitted].
  - symmetry. apply app_nil_r.
  - rewrite run_cons, IH, step_errors, app_assoc. reflexivity.
Qed.

Lemma emitted_nil_iff (es : list event) : forall s,
  emitted s es = [] <->
  forall pre e post, es = pre ++ e :: post -> emitted_by (run s pre) e = [].
Proof.
  induction es as [|e es IH]; intro s; cbn [emitted].
  - split; [|reflexivity]. intros _ [|e0 pre] e post H; discriminate H.
  - split.
    + intros H pre e0 post E. apply app_eq_nil in H. destruct H as [He Hes].
      destruct pre as [|e1 pre]; cbn in E; injection E as -> ->.
      * exact He.
      * rewrite run_cons. exact (proj1 (IH _) Hes pre e0 post eq_refl).
    + intro H. pose proof (H [] e es eq_refl) as H0.
      change (run s []) with s in H0. rewrite H0. cbn [app]. apply IH.
      intros pre e0 post E. subst es.
      exact (H (e :: pre) e0 post eq_refl).
Qed.

Lemma step_function_signatures (s : SemanticErrorChecker) (e : event) :
  function_signatures (step s e) =
  match e with
  | EDeclFun k n => PyDict.set k n (function_signatures s)
  | _ => function_signatures s
  end.
Proof.
  destruct e as [k|k n|x|f a]; cbn; try reflexivity.
  - unfold visit_ID. destruct (PyDict.mem _ _); reflexivity.
  - destruct (PyDict.get _ _) as [e|]; [|reflexivity].
    destruct (Nat.eqb a e); reflexivity.
Qed.

(** ** How often a name is reported as undeclared *)

Lemma count_emitted_undeclared (x : string) (es : list event) : forall s,
  count_occ string_dec (emitted s es) (undeclared_msg x)
  = if PyDict.mem (Some x) (defined_vars s) then 0 else uses_before_decl x es.
Proof.
  induction es as [|e es IH]; intro s; cbn [emitted uses_before_decl].
  - cbn. destruct (PyDict.mem _ _); reflexivity.
  - rewrite count_occ_app, IH, step_defined_vars.
    destruct e as [k|k n|y|f a]; cbn [emitted_by].
    + cbn [count_occ]. destruct (pyname_eq_dec k (Some x)) as [->|N].
      * rewrite mem_set_same. destruct (PyDict.mem _ _); reflexivity.
      * rewrite mem_set_other by congruence. reflexivity.
    + reflexivity.
    + destruct (string_dec x y) as [<-|N].
      * destruct (PyDict.mem (Some x) (defined_vars s)) eqn:M.
        -- rewrite mem_set_same. reflexivity.
        -- rewrite M, count_occ_cons_eq by reflexivity. reflexivity.
      * assert (Nm : undeclared_msg y <> undeclared_msg x).
        { intro H. apply undeclared_msg_inj in H. congruence. }
        assert (Nk : Some x <> Some y) by congruence.
        destruct (PyDict.mem (Some y) (defined_vars s)) eqn:M.
        -- rewrite mem_set_other by exact Nk. cbn [count_occ].
           destruct (PyDict.mem _ _); reflexivity.
        -- rewrite count_occ_cons_neq by exact Nm. cbn [count_occ].
           destruct (PyDict.mem _ _); reflexivity.
    + destruct (PyDict.get (Some f) (function_signatures s)) as [expected|];
        [|reflexivity].
      destruct (Nat.eqb a expected); [reflexivity|].
      rewrite count_occ_cons_neq by apply arity_not_undeclared. reflexivity.
Qed.

Lemma count_warnings_undeclared (x : string) (l : list pyname) :
  count_occ string_dec (map unused_msg l) (undeclared_msg x) = 0.
Proof.
  induction l as [|k l IH]; [reflexivity|]. cbn [map].
  rewrite count_occ_cons_neq by apply unused_not_undeclared. exact IH.
Qed.

(** * Part 3: the properties *)

(** ** The scenarios of the specification, on the pycparser pass *)

Example scenario_A_result :
  check_ast Samples.scenario_A
  = ["Warning: Variable 'x' defined but never used."].
Proof. reflexivity. Qed.

Example scenario_B_events :
  events Samples.scenario_B
  = [ EDeclFun (Some "f") 1; EDeclVar (Some "a"); EDeclFun (Some "g") 1;
      ECall "f" 2; EUse "f" ].
Proof. reflexivity. Qed.

Example scenario_C_result :
  check_ast Samples.scenario_C
  = ["Error: Variable 'y' used before declaration."].
Proof. reflexivity. Qed.

(** ** C1: scopes *)

(** C1 (counter-example).  In
    [void f(void) { int x; } void g(void) { x = 5; }] the only declaration
    of [x] sits in the block of [f], which is closed when the block of [g],
    a sibling, is walked.  The scoped table of the specification (function
    scope and block entered, [x] declared, both left, function scope and
    block of [g] entered) does not resolve [x]; the table of the checker
    does once [f] is visited, and the pass reports nothing. *)
Lemma C1_closed_scope_still_resolves :
  ScopedSpec.resolve (Some "x")
    (ScopedSpec.enterScope (ScopedSpec.enterScope
       (ScopedSpec.exitScope (ScopedSpec.exitScope
          (ScopedSpec.declare (Some "x")
             (ScopedSpec.enterScope (ScopedSpec.enterScope
                ScopedSpec.file_scope))))))) = false
  /\ PyDict.mem (Some "x")
       (defined_vars
          (visit init_checker
             (Samples.func_def "f" Samples.void_params [Samples.int_decl "x"])))
     = true
  /\ check_ast Samples.sibling_scopes = []
  /\ ~ In (undeclared_msg "x") (check_ast Samples.sibling_scopes).
Proof.
  repeat split; try reflexivity.
  intros [].
Qed.

(** C1 (amended).  The checker keeps one table for the whole file and never
    closes a scope.  At a reference to [x], visited in the state the
    traversal has reached: if a plain-variable declaration of [x] was
    visited before, wherever it sits, the reference adds no line and sets
    the flag of [x], and no later reference adds an undeclared-variable
    line for [x] either; if none was visited before, the reference adds
    exactly the undeclared-variable line for [x] and leaves the table as it
    is.  The pass produces no line other than undeclared-variable, arity
    and unused-variable ones, so a declaration of a name that has an entry
    is no error. *)
Theorem C1_flat_table_resolution (ast : node) (pre post : list event)
    (x : string) :
  events ast = pre ++ EUse x :: post ->
  let before := run init_checker pre in
  let after := visit before (ID x) in
  visit init_checker ast = run after post
  /\ (In (EDeclVar (Some x)) pre ->
        errors after = errors before
        /\ PyDict.get (Some x) (defined_vars after) = Some true
        /\ count_occ string_dec (errors (visit init_checker ast))
             (undeclared_msg x)
           = count_occ string_dec (errors before) (undeclared_msg x))
  /\ (~ In (EDeclVar (Some x)) pre ->
        errors after = errors before ++ [undeclared_msg x]
        /\ defined_vars after = defined_vars before)
  /\ Forall finding (check_ast ast).
Proof.
  intros E before after.
  assert (V : visit init_checker ast = run after post).
  { rewrite visit_events, E, run_app, run_cons. reflexivity. }
  split; [exact V|]. split; [|split].
  - intro Hin. apply mem_init_run in Hin. fold before in Hin.
    assert (Ea : after = set_defined_vars
                           (PyDict.set (Some x) true (defined_vars before))
                           before).
    { unfold after. cbn [visit]. unfold visit_ID. rewrite Hin. reflexivity. }
    split; [rewrite Ea; reflexivity|].
    split; [rewrite Ea; apply get_set_same|].
    rewrite V, run_errors_emitted, count_occ_app, count_emitted_undeclared.
    rewrite Ea. cbn [defined_vars set_defined_vars errors].
    rewrite mem_set_same. apply Nat.add_0_r.
  - intro Hnot.
    assert (M : PyDict.mem (Some x) (defined_vars before) = false).
    { destruct (PyDict.mem (Some x) (defined_vars before)) eqn:M;
        [|reflexivity].
      exfalso. apply Hnot. apply mem_init_run. exact M. }
    unfold after. cbn [visit]. unfold visit_ID. rewrite M.
    split; reflexivity.
  - apply check_ast_findings.
Qed.

Lemma C1_flat_table_resolution_witness :
  events Samples.sibling_scopes
  = [EDeclFun (Some "f") 1; EDeclVar (Some "x"); EDeclFun (Some "g") 1]
      ++ EUse "x" :: []
  /\ errors
       (visit
          (run init_checker
             [EDeclFun (Some "f") 1; EDeclVar (Some "x");
              EDeclFun (Some "g") 1])
          (ID "x"))
     = errors
         (run init_checker
            [EDeclFun (Some "f") 1; EDeclVar (Some "x");
             EDeclFun (Some "g") 1]).
Proof.
  split; [reflexivity|].
  destruct (C1_flat_table_resolution Samples.sibling_scopes
              [EDeclFun (Some "f") 1; EDeclVar (Some "x"); EDeclFun (Some "g") 1]
              [] "x" eq_refl) as [_ [H _]].
  destruct H as [H _].
  - right. left. reflexivity.
  - exact H.
Defined.

(** ** C2: the callee of a call *)

(** C2 (counter-example).  In [void g(void) { h(); }] the name [h] occurs
    only as the callee of a call and is declared nowhere; the pass reports
    it as an undeclared variable. *)
Lemma C2_unresolved_callee_reported :
  events Samples.unresolved_call = [EDeclFun (Some "g") 1; ECall "h" 0; EUse "h"]
  /\ check_ast Samples.unresolved_call
     = ["Error: Variable 'h' used before declaration."]
  /\ has_kind "Error: Variable 'h' used before declaration." UndeclaredVariable.
Proof. repeat split; try reflexivity. apply (kind_undeclared "h"). Qed.

(** C2 (amended).  A call whose callee is an identifier with no entry in
    the function table and none in the variable table adds no arity error
    of its own; the callee is visited as any identifier and adds one
    undeclared-variable error, after which the arguments are walked. *)
Theorem C2_unresolved_callee (s : SemanticErrorChecker) (f : string)
    (args : option (list node)) :
  PyDict.get (Some f) (function_signatures s) = None ->
  PyDict.mem (Some f) (defined_vars s) = false ->
  visit s (FuncCall (ID f) args)
  = fold_left visit (call_args args) (append_error (undeclared_msg f) s)
  /\ exists rest,
       errors (visit s (FuncCall (ID f) args))
       = errors s ++ undeclared_msg f :: rest.
Proof.
  intros Hf Hv.
  assert (V : visit s (FuncCall (ID f) args) =
              fold_left visit (call_args args)
                (append_error (undeclared_msg f) s)).
  { rewrite visit_call. unfold visit_FuncCall. rewrite Hf.
    cbn [visit]. unfold visit_ID. rewrite Hv. reflexivity. }
  split; [exact V|].
  destruct (fold_visit_errors (call_args args)
              (append_error (undeclared_msg f) s)) as [rest [E _]].
  exists rest. rewrite V, E. cbn. rewrite <- app_assoc. reflexivity.
Qed.

Lemma C2_unresolved_callee_witness :
  PyDict.get (Some "h") (function_signatures init_checker) = None
  /\ PyDict.mem (Some "h") (defined_vars init_checker) = false
  /\ visit init_checker (FuncCall (ID "h") None)
     = append_error (undeclared_msg "h") init_checker.
Proof.
  split; [reflexivity|]. split; [reflexivity|].
  destruct (C2_unresolved_callee init_checker "h" None eq_refl eq_refl)
    as [H _].
  exact H.
Defined.

(** ** C3: unused declarations *)

(** C3 (counter-example).  In
    [void f(int a) { } void g(void) { f(1, 2); }] the parameter [a] of [f]
    is never referenced, and the pass reports it as unused. *)
Lemma C3_parameter_reported_unused :
  In (EDeclVar (Some "a"))
     (events (FuncDecl (Some [Samples.int_decl "a"])
                (TypeDecl (Some "f") IdentifierType)))
  /\ reported_unused Samples.scenario_B = [Some "a"]
  /\ In "Warning: Variable 'a' defined but never used."
        (check_ast Samples.scenario_B).
Proof.
  split; [left; reflexivity|]. split; [reflexivity|].
  right. right. left. reflexivity.
Qed.

(** C3 (amended).  After the traversal every name in the variable table
    whose flag is false gets one unused-variable warning, in table order:
    these are the names with a plain-variable declaration (a parameter
    included) that no reference follows in traversal order.  The
    declaration of a function leaves the variable table as it is, so a
    name with no plain-variable declaration is never reported. *)
Theorem C3_unused_reporting (ast : node) :
  check_ast ast
  = errors (visit init_checker ast) ++ map unused_msg (reported_unused ast)
  /\ NoDup (reported_unused ast)
  /\ (forall k, In k (reported_unused ast) <->
        exists pre post,
          events ast = pre ++ EDeclVar k :: post /\ no_use k post)
  /\ (forall generic_visit name args type s,
        exists s',
          visit_Decl generic_visit name (FuncDecl args type) s = generic_visit s'
          /\ defined_vars s' = defined_vars s)
  /\ (forall k, ~ In (EDeclVar k) (events ast) -> ~ In k (reported_unused ast)).
Proof.
  split; [apply check_ast_split|].
  split; [apply NoDup_reported_unused|].
  split; [intro k; apply reported_unused_iff|].
  split.
  - intros generic_visit name args type s.
    exists (set_function_signatures
              (PyDict.set name (arg_count args) (function_signatures s)) s).
    split; reflexivity.
  - intros k Hnot Hin. apply reported_unused_iff in Hin.
    destruct Hin as [pre [post [E _]]]. apply Hnot. rewrite E.
    apply in_or_app. right. left. reflexivity.
Qed.

(** ** C4: a source that does not parse *)

(** C4.  When the parser raises, [check_code] returns one line, the parse
    failure, and that line is no undeclared-variable, arity or
    unused-variable diagnostic. *)
Theorem C4_parse_failure_alone (parse : string -> parse_result)
    (code e : string) :
  parse code = ParseError e ->
  check_code parse code = [parse_failure_msg e]
  /\ List.length (check_code parse code) = 1
  /\ forall m, In m (check_code parse code) ->
       has_kind m ParseFailure /\ ~ finding m.
Proof.
  intro H. unfold check_code. rewrite H.
  split; [reflexivity|]. split; [reflexivity|].
  intros m [<-|[]].
  split; [constructor | apply parse_failure_not_finding; constructor].
Qed.

Lemma C4_parse_failure_alone_witness :
  check_code (fun _ => ParseError ":1:22: before: {") "void g(void) { y = 5; {"
  = [parse_failure_msg ":1:22: before: {"].
Proof.
  destruct (C4_parse_failure_alone (fun _ => ParseError ":1:22: before: {")
              "void g(void) { y = 5; {" ":1:22: before: {" eq_refl) as [H _].
  exact H.
Defined.

(** ** C5: the libclang pass raises *)

(** C5 (what the code does).  Whenever preprocessing completes and
    libclang raises, the run ends with that exception right after the
    heading of the Clang pass: the lines of the pycparser pass are printed,
    nothing is printed about the failure, and the closing line is not
    reached. *)
Theorem C5_external_failure_ends_run
    (subprocess_run : list string -> run_result)
    (parse : string -> parse_result)
    (libclang_parse : string -> list string -> clang_result)
    (c_file code e : string) :
  subprocess_run ("clang" :: clang_flags c_file include_dirs) = Completed code ->
  libclang_parse c_file ["-Wall"; "-fsyntax-only"] = ClangException e ->
  snd (analyze_code subprocess_run parse libclang_parse c_file) = Raised e
  /\ printed (fst (analyze_code subprocess_run parse libclang_parse c_file))
     = [ ("Analyzing: " ++ c_file ++ nl)%string;
         "Preprocessing code for pycparser...";
         "pycparser Analysis:" ]
       ++ report_section "No issues found by pycparser." (check_code parse code)
       ++ [ (nl ++ "Clang Analysis:")%string ].
Proof.
  intros Hpre Hclang.
  unfold analyze_code, preprocess_code, clang_analysis.
  rewrite Hpre, Hclang.
  cbn -[print_each printed check_code traverse_ast nl append].
  rewrite (print_section_log "No issues found by pycparser.").
  cbn -[print_each printed check_code traverse_ast nl append].
  split; [reflexivity|].
  repeat (rewrite printed_Print || (rewrite printed_call by reflexivity)
          || rewrite printed_app || rewrite printed_map_Print).
  reflexivity.
Qed.

(** The run at the failing input: the source of [scenario_C] preprocesses
    and parses, and libclang cannot be loaded. *)
Lemma C5_external_failure_ends_run_witness :
  snd (analyze_code
         (fun _ => Completed "void g(void) { y = 5; }")
         (fun _ => Parsed Samples.scenario_C)
         (fun _ _ => ClangException "LibclangError")
         "prog.c") = Raised "LibclangError"
  /\ printed
       (fst (analyze_code
               (fun _ => Completed "void g(void) { y = 5; }")
               (fun _ => Parsed Samples.scenario_C)
               (fun _ _ => ClangException "LibclangError")
               "prog.c"))
     = [ ("Analyzing: prog.c" ++ nl)%string;
         "Preprocessing code for pycparser...";
         "pycparser Analysis:";
         "Error: Variable 'y' used before declaration.";
         (nl ++ "Clang Analysis:")%string ].
Proof.
  exact (C5_external_failure_ends_run
           (fun _ => Completed "void g(void) { y = 5; }")
           (fun _ => Parsed Samples.scenario_C)
           (fun _ _ => ClangException "LibclangError")
           "prog.c" "void g(void) { y = 5; }" "LibclangError"
           eq_refl eq_refl).
Defined.

(** The whole log of that run. *)
Example external_failure_log :
  analyze_code
    (fun _ => Completed "void g(void) { y = 5; }")
    (fun _ => Parsed Samples.scenario_C)
    (fun _ _ => ClangException "LibclangError")
    "prog.c"
  = ( [ Printed ("Analyzing: prog.c" ++ nl);
        Printed "Preprocessing code for pycparser...";
        Printed "pycparser Analysis:";
        Called_check_code "void g(void) { y = 5; }";
        Printed "Error: Variable 'y' used before declaration.";
        Printed (nl ++ "Clang Analysis:");
        Called_clang_analysis "prog.c" ],
      Raised "LibclangError" ).
Proof. reflexivity. Qed.

(** ** C6: preprocessing fails *)

(** C6.  When the preprocessor does not complete, neither pass is called.
    On a non-zero exit the run prints the failure with the standard error
    of the preprocessor, prints that preprocessing failed, and returns; on
    any other exception the run ends with that exception. *)
Theorem C6_preprocessing_failure_short_circuits
    (subprocess_run : list string -> run_result)
    (parse : string -> parse_result)
    (libclang_parse : string -> list string -> clang_result)
    (c_file : string) :
  (forall stdout,
      subprocess_run ("clang" :: clang_flags c_file include_dirs)
      <> Completed stdout) ->
  existsb is_pass_call
    (fst (analyze_code subprocess_run parse libclang_parse c_file)) = false
  /\ match subprocess_run ("clang" :: clang_flags c_file include_dirs) with
     | CalledProcessError stderr =>
         analyze_code subprocess_run parse libclang_parse c_file
         = ( [ Printed ("Analyzing: " ++ c_file ++ nl);
               Printed "Preprocessing code for pycparser...";
               Printed ("Preprocessing failed: " ++ stderr);
               Printed "Failed to preprocess the code." ],
             Returned tt )
     | OtherException e =>
         analyze_code subprocess_run parse libclang_parse c_file
         = ( [ Printed ("Analyzing: " ++ c_file ++ nl);
               Printed "Preprocessing code for pycparser..." ],
             Raised e )
     | Completed _ => False
     end.
Proof.
  intro H. unfold analyze_code, preprocess_code.
  destruct (subprocess_run ("clang" :: clang_flags c_file include_dirs))
    as [stdout|stderr|e] eqn:E.
  - exfalso. apply (H stdout). reflexivity.
  - split; reflexivity.
  - split; reflexivity.
Qed.

Lemma C6_preprocessing_failure_short_circuits_witness :
  analyze_code
    (fun _ => CalledProcessError "clang: error: no such file")
    (fun _ => Parsed Samples.scenario_C)
    (fun _ _ => TranslationUnit TwoFindings.root)
    "missing.c"
  = ( [ Printed ("Analyzing: missing.c" ++ nl);
        Printed "Preprocessing code for pycparser...";
        Printed "Preprocessing failed: clang: error: no such file";
        Printed "Failed to preprocess the code." ],
      Returned tt ).
Proof.
  destruct (C6_preprocessing_failure_short_circuits
              (fun _ => CalledProcessError "clang: error: no such file")
              (fun _ => Parsed Samples.scenario_C)
              (fun _ _ => TranslationUnit TwoFindings.root)
              "missing.c") as [_ H].
  - intros stdout. discriminate.
  - exact H.
Defined.

(** ** C7: arity *)

(** C7 (counter-example).  For
    [void f(int a) { } void g(void) { f(1, 2); }] the pass returns one
    arity error, and its text is not the quoted message: the line
    reads [Error: Function ...] with a final full stop, and the message the
    specification quotes occurs in no line of the result. *)
Lemma C7_arity_message_text :
  check_ast Samples.scenario_B
  = [ "Error: Function 'f' called with 2 arguments (expected 1).";
      "Error: Variable 'f' used before declaration.";
      "Warning: Variable 'a' defined but never used." ]
  /\ ~ In "function 'f' called with 2 arguments (expected 1)"
          (check_ast Samples.scenario_B)
  /\ forallb
       (fun line =>
          match
            index 0 "function 'f' called with 2 arguments (expected 1)" line
          with
          | None => true
          | Some _ => false
          end)
       (check_ast Samples.scenario_B) = true.
Proof.
  split; [reflexivity|]. split; [|reflexivity].
  intros [H|[H|[H|[]]]]; discriminate H.
Qed.

(** C7 (amended).  For a call whose callee is an identifier with an entry
    in the function table, the call adds the line
    [Error: Function '<name>' called with <actual> arguments (expected
    <expected>).] exactly when the number of argument expressions differs
    from the stored count: with a different number the line is appended
    before anything else the call does, with the same number the state
    goes on unchanged; the callee and then the arguments are walked after
    that. *)
Theorem C7_arity_check (s : SemanticErrorChecker) (f : string)
    (args : option (list node)) (expected : nat) :
  PyDict.get (Some f) (function_signatures s) = Some expected ->
  (actual_arg_count args <> expected ->
     visit s (FuncCall (ID f) args)
     = fold_left visit (call_args args)
         (visit
            (append_error (arity_msg f (actual_arg_count args) expected) s)
            (ID f))
     /\ exists rest,
          errors (visit s (FuncCall (ID f) args))
          = errors s ++ arity_msg f (actual_arg_count args) expected :: rest)
  /\ (actual_arg_count args = expected ->
        visit s (FuncCall (ID f) args)
        = fold_left visit (call_args args) (visit s (ID f)))
  /\ arity_msg f (actual_arg_count args) expected
     = ("Error: Function '" ++ f ++ "' called with "
          ++ str_nat (actual_arg_count args) ++ " arguments (expected "
          ++ str_nat expected ++ ").")%string.
Proof.
  intro H. split; [|split; [|reflexivity]].
  - intro N.
    assert (V : visit s (FuncCall (ID f) args)
                = fold_left visit (call_args args)
                    (visit
                       (append_error
                          (arity_msg f (actual_arg_count args) expected) s)
                       (ID f))).
    { rewrite visit_call. unfold visit_FuncCall. rewrite H.
      apply Nat.eqb_neq in N. rewrite N. reflexivity. }
    split; [exact V|].
    destruct (fold_visit_errors (call_args args)
                (visit
                   (append_error
                      (arity_msg f (actual_arg_count args) expected) s)
                   (ID f))) as [l [El _]].
    destruct (run_errors (events (ID f))
                (append_error
                   (arity_msg f (actual_arg_count args) expected) s))
      as [l0 [E0 _]].
    rewrite <- visit_events in E0.
    exists (l0 ++ l). rewrite V, El, E0. cbn.
    rewrite <- !app_assoc. reflexivity.
  - intro E. rewrite visit_call. unfold visit_FuncCall. rewrite H.
    apply Nat.eqb_eq in E. rewrite E. reflexivity.
Qed.

Lemma C7_arity_check_witness :
  PyDict.get (Some "f")
    (function_signatures
       (mkChecker [(Some "a", false)] [(Some "f", 1); (Some "g", 1)] []))
  = Some 1
  /\ exists rest,
       errors
         (visit
            (mkChecker [(Some "a", false)] [(Some "f", 1); (Some "g", 1)] [])
            (FuncCall (ID "f") (Some [Constant; Constant])))
       = [] ++ arity_msg "f" 2 1 :: rest.
Proof.
  split; [reflexivity|].
  destruct (C7_arity_check
              (mkChecker [(Some "a", false)] [(Some "f", 1); (Some "g", 1)] [])
              "f" (Some [Constant; Constant]) 1 eq_refl) as [H _].
  destruct H as [_ H].
  - cbn. lia.
  - exact H.
Defined.

(** ** C8: the order of the report *)

(** C8 (counter-example).  In the source of [WarningAfterError] the
    declaration of [x] is on line 2 and the reference to [y] on line 3.
    The internal pass returns the error for [y] before the warning for [x],
    libclang flags nothing, and the run prints the two lines in that order;
    ordered by location, the warning of line 2 comes first. *)
Lemma C8_report_not_ordered_by_location :
  check_code WarningAfterError.parse WarningAfterError.code
    = map SpecMerger.text warning_after_error_internal
  /\ traverse_ast [] WarningAfterError.root = Returned []
  /\ printed (fst (analyze_code WarningAfterError.subprocess_run
                     WarningAfterError.parse
                     WarningAfterError.libclang_parse "t.c"))
    = [ ("Analyzing: t.c" ++ nl)%string;
        "Preprocessing code for pycparser...";
        "pycparser Analysis:";
        "Error: Variable 'y' used before declaration.";
        "Warning: Variable 'x' defined but never used.";
        (nl ++ "Clang Analysis:")%string;
        "No issues found by Clang.";
        (nl ++ "Analysis Complete." ++ nl)%string ]
  /\ map SpecMerger.text (SpecMerger.merge warning_after_error_internal [])
    = [ "Warning: Variable 'x' defined but never used.";
        "Error: Variable 'y' used before declaration." ]
  /\ map SpecMerger.text (warning_after_error_internal ++ [])
     <> map SpecMerger.text
          (SpecMerger.merge warning_after_error_internal []).
Proof.
  repeat split; try reflexivity.
  intro H. vm_compute in H. discriminate H.
Qed.

(** C8 (amended).  When both passes return, the run prints the lines of the
    internal pass in the order that pass produced them and then the lines
    of the external pass in the order that pass produced them, between
    fixed headings; nothing is sorted or dropped, and the printed lines are
    determined by the file name and the two lists. *)
Theorem C8_report_order
    (subprocess_run : list string -> run_result)
    (parse : string -> parse_result)
    (libclang_parse : string -> list string -> clang_result)
    (c_file code : string) (root : cursor) (external : list string) :
  subprocess_run ("clang" :: clang_flags c_file include_dirs) = Completed code ->
  libclang_parse c_file ["-Wall"; "-fsyntax-only"] = TranslationUnit root ->
  traverse_ast [] root = Returned external ->
  snd (analyze_code subprocess_run parse libclang_parse c_file) = Returned tt
  /\ printed (fst (analyze_code subprocess_run parse libclang_parse c_file))
     = [ ("Analyzing: " ++ c_file ++ nl)%string;
         "Preprocessing code for pycparser...";
         "pycparser Analysis:" ]
       ++ report_section "No issues found by pycparser." (check_code parse code)
       ++ [ (nl ++ "Clang Analysis:")%string ]
       ++ report_section "No issues found by Clang." external
       ++ [ (nl ++ "Analysis Complete." ++ nl)%string ].
Proof.
  intros Hpre Hclang Hwalk.
  unfold analyze_code, preprocess_code, clang_analysis.
  rewrite Hpre, Hclang, Hwalk.
  cbn -[print_each printed check_code nl append].
  rewrite (print_section_log "No issues found by pycparser.").
  cbn -[print_each printed check_code nl append].
  rewrite (print_section_log "No issues found by Clang.").
  cbn -[print_each printed check_code nl append].
  split; [reflexivity|].
  repeat (rewrite printed_Print || (rewrite printed_call by reflexivity)
          || rewrite printed_app || rewrite printed_map_Print).
  reflexivity.
Qed.

Lemma C8_report_order_witness :
  traverse_ast [] WarningAfterError.root = Returned []
  /\ printed (fst (analyze_code WarningAfterError.subprocess_run
                     WarningAfterError.parse
                     WarningAfterError.libclang_parse "t.c"))
     = [ ("Analyzing: t.c" ++ nl)%string;
         "Preprocessing code for pycparser...";
         "pycparser Analysis:" ]
       ++ report_section "No issues found by pycparser."
            (check_code WarningAfterError.parse WarningAfterError.code)
       ++ [ (nl ++ "Clang Analysis:")%string ]
       ++ report_section "No issues found by Clang." []
       ++ [ (nl ++ "Analysis Complete." ++ nl)%string ].
Proof.
  split; [reflexivity|].
  destruct (C8_report_order WarningAfterError.subprocess_run
              WarningAfterError.parse WarningAfterError.libclang_parse
              "t.c" WarningAfterError.code WarningAfterError.root []
              eq_refl eq_refl eq_refl) as [_ H].
  exact H.
Defined.

(** ** C9: a declaration of a name that has an entry *)



(** ** C10: warnings come last *)

(** C10.  In the list [check_code] returns for a source that parses, every
    unused-variable warning stands after every undeclared-variable and
    every arity error. *)
Theorem C10_warnings_trail_errors (parse : string -> parse_result)
    (code : string) (ast : node) (i j : nat) (w e : string) :
  parse code = Parsed ast ->
  nth_error (check_code parse code) i = Some w ->
  has_kind w UnusedVariable ->
  nth_error (check_code parse code) j = Some e ->
  has_kind e UndeclaredVariable \/ has_kind e ArityMismatch ->
  j < i.
Proof.
  intros Hparse Hi Hw Hj He. unfold check_code in Hi, Hj.
  rewrite Hparse in Hi, Hj.
  destruct (check_ast_errors_then_warnings ast) as [errs [warns [E [Fe Fw]]]].
  rewrite E in Hi, Hj.
  assert (Li : List.length errs <= i).
  { destruct (le_lt_dec (List.length errs) i) as [L|L]; [exact L|].
    rewrite nth_error_app1 in Hi by exact L.
    apply nth_error_In in Hi.
    exfalso. apply (unused_not_error w Hw).
    rewrite Forall_forall in Fe. exact (Fe w Hi). }
  assert (Lj : j < List.length errs).
  { destruct (le_lt_dec (List.length errs) j) as [L|L]; [|exact L].
    rewrite nth_error_app2 in Hj by exact L.
    apply nth_error_In in Hj.
    exfalso. apply (unused_not_error e); [|exact He].
    rewrite Forall_forall in Fw. exact (Fw e Hj). }
  lia.
Qed.

Lemma C10_warnings_trail_errors_witness :
  nth_error
    (check_code (fun _ => Parsed Samples.unused_then_undeclared)
       "void g(void) { int x; y = 5; }") 1
  = Some (unused_msg (Some "x"))
  /\ nth_error
       (check_code (fun _ => Parsed Samples.unused_then_undeclared)
          "void g(void) { int x; y = 5; }") 0
     = Some (undeclared_msg "y")
  /\ 0 < 1.
Proof.
  split; [reflexivity|]. split; [reflexivity|].
  apply (C10_warnings_trail_errors
           (fun _ => Parsed Samples.unused_then_undeclared)
           "void g(void) { int x; y = 5; }"
           Samples.unused_then_undeclared 1 0
           (unused_msg (Some "x")) (undeclared_msg "y")).
  - reflexivity.
  - reflexivity.
  - constructor.
  - reflexivity.
  - left. constructor.
Defined.

(** * Part 4: further properties of the code *)

(** ** X1: a traversal only appends errors *)

(** X1.  Visiting a node, from any state, leaves the lines already in
    [errors] where they are and appends only undeclared-variable and arity
    errors: no diagnostic is dropped or rewritten, and no warning is
    produced before [check_unused_vars]. *)
Theorem X1_visit_only_appends (s : SemanticErrorChecker) (n : node) :
  exists added,
    errors (visit s n) = errors s ++ added
    /\ Forall traversal_error added
    /\ added = emitted s (events n).
Proof.
  exists (emitted s (events n)).
  rewrite visit_events. split; [apply run_errors_emitted|]. split; [|reflexivity].
  destruct (run_errors (events n) s) as [l [E F]].
  rewrite run_errors_emitted in E. apply app_inv_head in E. rewrite E. exact F.
Qed.

(** ** X2: entries are never removed *)

Lemma run_keys (es : list event) : forall s,
  exists new_vars new_funs,
    PyDict.keys (defined_vars (run s es))
    = PyDict.keys (defined_vars s) ++ new_vars
    /\ PyDict.keys (function_signatures (run s es))
       = PyDict.keys (function_signatures s) ++ new_funs.
Proof.
  induction es as [|e es IH]; intro s.
  - exists [], []. split; symmetry; apply app_nil_r.
  - rewrite run_cons. destruct (IH (step s e)) as [nv [nf [Ev Ef]]].
    rewrite Ev, Ef, step_defined_vars, step_function_signatures.
    destruct e as [k|k n|x|f a].
    + rewrite keys_set. destruct (PyDict.mem k (defined_vars s)).
      * exists nv, nf. split; reflexivity.
      * exists (k :: nv), nf. rewrite <- app_assoc. split; reflexivity.
    + rewrite keys_set. destruct (PyDict.mem k (function_signatures s)).
      * exists nv, nf. split; reflexivity.
      * exists nv, (k :: nf). rewrite <- app_assoc. split; reflexivity.
    + destruct (PyDict.mem (Some x) (defined_vars s)) eqn:M.
      * rewrite keys_set, M. exists nv, nf. split; reflexivity.
      * exists nv, nf. split; reflexivity.
    + exists nv, nf. split; reflexivity.
Qed.

(** X2.  Visiting a node never removes or reorders an entry of either
    table: the keys before the visit are a prefix of the keys after it, so
    a name that resolved before a block still resolves after it. *)
Theorem X2_visit_keeps_entries (s : SemanticErrorChecker) (n : node) :
  exists new_vars new_funs,
    PyDict.keys (defined_vars (visit s n))
    = PyDict.keys (defined_vars s) ++ new_vars
    /\ PyDict.keys (function_signatures (visit s n))
       = PyDict.keys (function_signatures s) ++ new_funs.
Proof. rewrite visit_events. apply run_keys. Qed.

(** ** X3: a used flag stays set until the name is declared again *)

Lemma get_run_true (k : pyname) (es : list event) : forall s,
  PyDict.get k (defined_vars s) = Some true ->
  ~ In (EDeclVar k) es ->
  PyDict.get k (defined_vars (run s es)) = Some true.
Proof.
  induction es as [|e es IH]; intros s Hs Hn; [assumption|].
  rewrite run_cons. apply IH; [|intro H; apply Hn; right; exact H].
  rewrite step_defined_vars.
  destruct e as [k'|k' n|x|f a]; try assumption.
  - rewrite get_set_other; [assumption|].
    intros ->. apply Hn. left. reflexivity.
  - destruct (PyDict.mem _ _); [|assumption].
    destruct (pyname_eq_dec k (Some x)) as [->|N].
    + apply get_set_same.
    + rewrite get_set_other; assumption.
Qed.

(** X3.  A name whose flag is set keeps it through the visit of any node
    that holds no plain-variable declaration of the name: only a
    declaration resets a flag. *)
Theorem X3_used_flag_kept (s : SemanticErrorChecker) (n : node) (k : pyname) :
  PyDict.get k (defined_vars s) = Some true ->
  ~ In (EDeclVar k) (events n) ->
  PyDict.get k (defined_vars (visit s n)) = Some true.
Proof. intros H Hn. rewrite visit_events. now apply get_run_true. Qed.

Lemma X3_used_flag_kept_witness :
  PyDict.get (Some "x")
    (defined_vars
       (visit (mkChecker [(Some "x", true)] [] [])
          (Compound [Samples.int_decl "y"; Assignment (ID "y") (ID "x")])))
  = Some true.
Proof.
  apply (X3_used_flag_kept (mkChecker [(Some "x", true)] [] [])
           (Compound [Samples.int_decl "y"; Assignment (ID "y") (ID "x")])
           (Some "x")).
  - reflexivity.
  - cbn. intros [H|[H|[H|[]]]]; discriminate H.
Defined.

(** ** X4: when the pass reports nothing *)

Lemma get_run_stored_count (k : pyname) (es : list event) : forall s acc,
  PyDict.get k (function_signatures s) = acc ->
  PyDict.get k (function_signatures (run s es))
  = fold_left
      (fun acc e =>
         match e with
         | EDeclFun k' n => if pyname_eq_dec k k' then Some n else acc
         | _ => acc
         end)
      es acc.
Proof.
  induction es as [|e es IH]; intros s acc H; [exact H|].
  rewrite run_cons. cbn [fold_left]. apply IH.
  rewrite step_function_signatures.
  destruct e as [k'|k' n|x|f a]; try exact H.
  destruct (pyname_eq_dec k k') as [->|N].
  - apply get_set_same.
  - rewrite get_set_other; assumption.
Qed.

(** The function table after a traversal from a fresh checker holds, for
    each name, the count of its last function declaration. *)
Lemma get_init_stored_count (k : pyname) (es : list event) :
  PyDict.get k (function_signatures (run init_checker es)) = stored_count k es.
Proof. apply get_run_stored_count. reflexivity. Qed.

(** X4.  The pass returns the empty list exactly when, in traversal order,
    every reference follows a plain-variable declaration of its name, every
    call of a name whose function declaration was visited supplies the
    count of the last such declaration, and every plain-variable
    declaration is followed by a reference to its name. *)
Theorem X4_clean_report (ast : node) :
  check_ast ast = [] <->
  (forall pre x post,
      events ast = pre ++ EUse x :: post -> In (EDeclVar (Some x)) pre)
  /\ (forall pre f a post expected,
        events ast = pre ++ ECall f a :: post ->
        stored_count (Some f) pre = Some expected -> a = expected)
  /\ (forall pre k post,
        events ast = pre ++ EDeclVar k :: post ->
        exists x, k = Some x /\ In (EUse x) post).
Proof.
  rewrite check_ast_split, visit_events, run_errors_emitted. cbn [errors init_checker app].
  split.
  - intro H. apply app_eq_nil in H. destruct H as [He Hw].
    apply map_eq_nil in Hw.
    pose proof (proj1 (emitted_nil_iff (events ast) init_checker) He) as Hev.
    split; [|split].
    + intros pre x post E. specialize (Hev pre (EUse x) post E). cbn in Hev.
      destruct (PyDict.mem (Some x) (defined_vars (run init_checker pre))) eqn:M;
        [|discriminate Hev].
      apply mem_init_run. exact M.
    + intros pre f a post expected E Hs.
      specialize (Hev pre (ECall f a) post E). cbn in Hev.
      rewrite get_init_stored_count, Hs in Hev.
      destruct (Nat.eqb a expected) eqn:Q; [|discriminate Hev].
      apply Nat.eqb_eq. exact Q.
    + intros pre k post E.
      assert (Hnot : ~ In k (reported_unused ast)) by (rewrite Hw; intros []).
      rewrite reported_unused_iff in Hnot.
      destruct k as [x|].
      * destruct (in_dec event_eq_dec (EUse x) post) as [Hin|Hout].
        -- exists x. split; [reflexivity | exact Hin].
        -- exfalso. apply Hnot. exists pre, post. split; [exact E|].
           intros y [= <-]. exact Hout.
      * exfalso. apply Hnot. exists pre, post. split; [exact E|].
        intros y Hy. discriminate Hy.
  - intros [Huse [Hcall Hdecl]].
    assert (He : emitted init_checker (events ast) = []).
    { apply emitted_nil_iff. intros pre e post E.
      destruct e as [k|k n|x|f a]; cbn; try reflexivity.
      - apply Huse in E. apply mem_init_run in E. rewrite E. reflexivity.
      - rewrite get_init_stored_count.
        destruct (stored_count (Some f) pre) as [expected|] eqn:Hs; [|reflexivity].
        rewrite (Hcall pre f a post expected E Hs), Nat.eqb_refl. reflexivity. }
    rewrite He. cbn [app].
    destruct (reported_unused ast) as [|k l] eqn:R; [reflexivity|].
    exfalso.
    assert (Hin : In k (reported_unused ast)) by (rewrite R; left; reflexivity).
    apply reported_unused_iff in Hin.
    destruct Hin as [pre [post [E Hn]]].
    destruct (Hdecl pre k post E) as [x [-> Hx]].
    exact (Hn x eq_refl Hx).
Qed.

(** ** X5: how often a name is reported as undeclared *)

(** X5.  The undeclared-variable error for a name occurs in the result once
    for each reference to the name that comes, in traversal order, before
    the first plain-variable declaration of the name, and for no other
    reason: a reference after that declaration is never reported, in
    whatever block it sits, and one before it always is, even when the
    declaration follows. *)
Theorem X5_undeclared_count (ast : node) (x : string) :
  count_occ string_dec (check_ast ast) (undeclared_msg x)
  = uses_before_decl x (events ast).
Proof.
  rewrite check_ast_split, visit_events, run_errors_emitted.
  cbn [errors init_checker app].
  rewrite count_occ_app, count_emitted_undeclared, count_warnings_undeclared.
  cbn. apply Nat.add_0_r.
Qed.

(** ** X6: the callee of a call to a declared function *)

(** X6.  A call whose callee is an identifier with no entry in the variable
    table is reported as an undeclared variable right after the arity check
    of the call, whether or not the function table has the name: a call to
    a declared function is reported too. *)
Theorem X6_callee_reported_as_variable (s : SemanticErrorChecker)
    (f : string) (args : option (list node)) :
  PyDict.mem (Some f) (defined_vars s) = false ->
  exists rest,
    errors (visit s (FuncCall (ID f) args))
    = errors (visit_FuncCall (fun s => s) (ID f) args s)
        ++ undeclared_msg f :: rest.
Proof.
  intro M. rewrite visit_call.
  assert (M' : PyDict.mem (Some f)
                 (defined_vars (visit_FuncCall (fun s => s) (ID f) args s))
               = false).
  { change (visit_FuncCall (fun s => s) (ID f) args s)
      with (step s (ECall f (actual_arg_count args))).
    rewrite step_defined_vars. exact M. }
  set (s1 := visit_FuncCall (fun s => s) (ID f) args s) in *.
  assert (V : visit s1 (ID f) = append_error (undeclared_msg f) s1).
  { cbn [visit]. unfold visit_ID. rewrite M'. reflexivity. }
  rewrite V.
  destruct (fold_visit_errors (call_args args)
              (append_error (undeclared_msg f) s1)) as [rest [E _]].
  exists rest. rewrite E. cbn. rewrite <- app_assoc. reflexivity.
Qed.

Lemma X6_callee_reported_as_variable_witness :
  exists rest,
    errors
      (visit (mkChecker [(Some "a", false)] [(Some "f", 1); (Some "g", 1)] [])
         (FuncCall (ID "f") (Some [Constant])))
    = errors
        (visit_FuncCall (fun s => s) (ID "f") (Some [Constant])
           (mkChecker [(Some "a", false)] [(Some "f", 1); (Some "g", 1)] []))
        ++ undeclared_msg "f" :: rest.
Proof.
  apply (X6_callee_reported_as_variable
           (mkChecker [(Some "a", false)] [(Some "f", 1); (Some "g", 1)] [])
           "f" (Some [Constant])).
  reflexivity.
Defined.

(** ** X7: which declaration an arity check uses *)

(** X7.  At a call of the identifier [f], visited in the state the
    traversal has reached, the function table holds for [f] the parameter
    count of the last function declaration of [f] visited before the call.
    The arity check of the call appends the arity line for that count when
    the argument count differs from it, and leaves the state exactly as it
    is when the counts agree or when no declaration of [f] was visited
    before the call, even if one follows. *)
Theorem X7_arity_against_last_declaration (ast : node)
    (pre post : list event) (f : string) (a : nat) :
  events ast = pre ++ ECall f a :: post ->
  let before := run init_checker pre in
  PyDict.get (Some f) (function_signatures before) = stored_count (Some f) pre
  /\ visit init_checker ast = run (step before (ECall f a)) post
  /\ (forall args, actual_arg_count args = a ->
        visit_FuncCall (fun s => s) (ID f) args before
        = step before (ECall f a))
  /\ match stored_count (Some f) pre with
     | Some expected =>
         if Nat.eqb a expected
         then step before (ECall f a) = before
         else step before (ECall f a)
              = append_error (arity_msg f a expected) before
     | None => step before (ECall f a) = before
     end.
Proof.
  intros E before.
  assert (G : PyDict.get (Some f) (function_signatures before)
              = stored_count (Some f) pre)
    by apply get_init_stored_count.
  split; [exact G|]. split; [|split].
  - rewrite visit_events, E, run_app, run_cons. reflexivity.
  - intros args <-. reflexivity.
  - cbn [step]. rewrite G.
    destruct (stored_count (Some f) pre) as [expected|]; [|reflexivity].
    destruct (Nat.eqb a expected); reflexivity.
Qed.

(** In [void g(void) { f(1, 2); } void f(int a) { }] the call comes before
    the declaration of [f], and its arity check does nothing. *)
Lemma X7_arity_against_last_declaration_witness :
  events
    (FileAST
       [ Samples.func_def "g" Samples.void_params
           [FuncCall (ID "f") (Some [Constant; Constant])];
         Samples.func_def "f" (Some [Samples.int_decl "a"]) [] ])
  = [EDeclFun (Some "g") 1] ++ ECall "f" 2
      :: [EUse "f"; EDeclFun (Some "f") 1; EDeclVar (Some "a")]
  /\ step (run init_checker [EDeclFun (Some "g") 1]) (ECall "f" 2)
     = run init_checker [EDeclFun (Some "g") 1].
Proof.
  split; [reflexivity|].
  destruct (X7_arity_against_last_declaration
              (FileAST
                 [ Samples.func_def "g" Samples.void_params
                     [FuncCall (ID "f") (Some [Constant; Constant])];
                   Samples.func_def "f" (Some [Samples.int_decl "a"]) [] ])
              [EDeclFun (Some "g") 1]
              [EUse "f"; EDeclFun (Some "f") 1; EDeclVar (Some "a")]
              "f" 2 eq_refl) as [_ [_ [_ H]]].
  exact H.
Defined.

(** ** X8: a declaration without a name *)

(** X8.  A plain-variable declaration without a name (an unnamed bit-field)
    is entered under the key [None], which no reference can name: it is
    always reported, as the variable [None]. *)
Theorem X8_unnamed_declaration_reported (ast : node) :
  In (EDeclVar None) (events ast) ->
  In None (reported_unused ast)
  /\ In "Warning: Variable 'None' defined but never used." (check_ast ast).
Proof.
  intro H. apply in_split in H. destruct H as [pre [post E]].
  assert (R : In None (reported_unused ast)).
  { apply reported_unused_iff. exists pre, post. split; [exact E|].
    intros x Hx. discriminate Hx. }
  split; [exact R|].
  rewrite check_ast_split. apply in_or_app. right.
  exact (in_map unused_msg _ _ R).
Qed.

Lemma X8_unnamed_declaration_reported_witness :
  In "Warning: Variable 'None' defined but never used."
     (check_ast
        (FileAST
           [ Decl None
               (Other "Struct"
                  [Decl None (TypeDecl None IdentifierType) None (Some Constant)])
               None None ])).
Proof.
  apply (X8_unnamed_declaration_reported
           (FileAST
              [ Decl None
                  (Other "Struct"
                     [Decl None (TypeDecl None IdentifierType) None
                        (Some Constant)])
                  None None ])).
  left. reflexivity.
Defined.

(** ** X9: the order of the warnings *)

Lemma in_declared_vars (k : pyname) (es : list event) :
  In k (declared_vars es) <-> In (EDeclVar k) es.
Proof.
  unfold declared_vars. rewrite in_flat_map. split.
  - intros [e [He Hk]]. destruct e as [k'|k' n|x|f a]; cbn in Hk;
      try contradiction.
    destruct Hk as [->|[]]. exact He.
  - intro H. exists (EDeclVar k). split; [exact H | left; reflexivity].
Qed.

Lemma first_occurrences_snoc (l : list pyname) (k : pyname) :
  first_occurrences (l ++ [k])
  = if in_dec pyname_eq_dec k l
    then first_occurrences l else first_occurrences l ++ [k].
Proof.
  unfold first_occurrences. rewrite rev_app_distr. cbn [rev app nodup].
  destruct (in_dec pyname_eq_dec k (rev l)) as [Hin|Hout];
    destruct (in_dec pyname_eq_dec k l) as [Hin'|Hout']; try reflexivity.
  - exfalso. apply Hout'. apply in_rev. exact Hin.
  - exfalso. apply Hout. apply in_rev in Hin'. exact Hin'.
Qed.

(** The variable table lists the declared names where they were first
    declared. *)
Lemma keys_first_occurrences (es : list event) :
  PyDict.keys (defined_vars (run init_checker es))
  = first_occurrences (declared_vars es).
Proof.
  induction es as [|e es IH] using rev_ind; [reflexivity|].
  rewrite run_app. cbn [run fold_left]. rewrite step_defined_vars.
  unfold declared_vars in *. rewrite flat_map_app. cbn [flat_map].
  destruct e as [k|k n|x|f a]; rewrite ?app_nil_r; try exact IH.
  - cbn [app]. rewrite keys_set, first_occurrences_snoc, IH.
    destruct (in_dec pyname_eq_dec k _) as [Hin|Hout].
    + apply in_declared_vars, mem_init_run in Hin. rewrite Hin. reflexivity.
    + destruct (PyDict.mem k (defined_vars (run init_checker es))) eqn:M;
        [|reflexivity].
      exfalso. apply Hout. apply in_declared_vars, mem_init_run. exact M.
  - destruct (PyDict.mem (Some x) (defined_vars (run init_checker es))) eqn:M;
      [|exact IH].
    rewrite keys_set, M. exact IH.
Qed.

Lemma unused_vars_filter_keys (d : PyDict.dict bool) :
  NoDup (PyDict.keys d) ->
  unused_vars d
  = filter
      (fun k => match PyDict.get k d with Some false => true | _ => false end)
      (PyDict.keys d).
Proof.
  unfold unused_vars, PyDict.keys.
  induction d as [|[k b] d IH]; intro ND; [reflexivity|].
  inversion ND as [|? ? Hnotin ND']; subst.
  cbn [map filter fst snd PyDict.get].
  destruct (pyname_eq_dec k k) as [_|N]; [|congruence].
  assert (T : filter
                (fun k0 =>
                   match
                     (if pyname_eq_dec k0 k then Some b else PyDict.get k0 d)
                   with
                   | Some false => true
                   | _ => false
                   end) (map fst d)
              = filter
                  (fun k0 =>
                     match PyDict.get k0 d with
                     | Some false => true
                     | _ => false
                     end) (map fst d)).
  { apply filter_ext_in. intros k0 Hk0.
    destruct (pyname_eq_dec k0 k) as [->|_]; [contradiction | reflexivity]. }
  destruct b; cbn [negb map fst]; rewrite T, <- (IH ND'); reflexivity.
Qed.

(** X9.  The variable table holds the declared names in the order in which
    each was first declared, and the warnings follow that order: a name
    declared again later keeps its place. *)
Theorem X9_warnings_in_first_declaration_order (ast : node) :
  PyDict.keys (defined_vars (visit init_checker ast))
  = first_occurrences (declared_vars (events ast))
  /\ reported_unused ast
     = filter
         (fun k =>
            match PyDict.get k (defined_vars (visit init_checker ast)) with
            | Some false => true
            | _ => false
            end)
         (first_occurrences (declared_vars (events ast))).
Proof.
  assert (K : PyDict.keys (defined_vars (visit init_checker ast))
              = first_occurrences (declared_vars (events ast))).
  { rewrite visit_events. apply keys_first_occurrences. }
  split; [exact K|].
  unfold reported_unused. rewrite <- K. apply unused_vars_filter_keys.
  rewrite visit_events. apply run_NoDup_keys, init_NoDup_keys.
Qed.

(** ** X10: a checker used twice *)

Lemma check_code_fresh (parse : string -> parse_result) (code : string) :
  check_code parse code = snd (check_code_on parse init_checker code).
Proof. unfold check_code, check_code_on. destruct (parse code); reflexivity. Qed.

(** X10.  [check_code] does not reset the checker.  Called again on the
    same checker with a second source that parses, it returns the lines of
    the first call followed by new ones, and the names the first source
    declared still resolve: none of them is reported as undeclared among
    the new lines. *)
Theorem X10_checker_accumulates (parse : string -> parse_result)
    (s : SemanticErrorChecker) (code1 code2 : string) (ast1 ast2 : node) :
  parse code1 = Parsed ast1 ->
  parse code2 = Parsed ast2 ->
  exists added,
    snd (check_code_on parse (fst (check_code_on parse s code1)) code2)
    = snd (check_code_on parse s code1) ++ added
    /\ forall x, In (EDeclVar (Some x)) (events ast1) ->
         count_occ string_dec added (undeclared_msg x) = 0.
Proof.
  intros P1 P2. unfold check_code_on. rewrite P1, P2. cbn [fst snd].
  set (s1 := check_unused_vars (visit s ast1)).
  exists (emitted s1 (events ast2)
          ++ map unused_msg (unused_vars (defined_vars (visit s1 ast2)))).
  split.
  - cbn [check_unused_vars errors]. rewrite visit_events, run_errors_emitted.
    rewrite <- app_assoc. reflexivity.
  - intros x Hx.
    rewrite count_occ_app, count_emitted_undeclared, count_warnings_undeclared.
    assert (M : PyDict.mem (Some x) (defined_vars s1) = true).
    { unfold s1. cbn [check_unused_vars defined_vars].
      rewrite visit_events. apply mem_run. right. exact Hx. }
    rewrite M. reflexivity.
Qed.

Lemma X10_checker_accumulates_witness :
  exists added,
    snd (check_code_on (fun _ => Parsed Samples.scenario_A)
           (fst (check_code_on (fun _ => Parsed Samples.scenario_A)
                   init_checker "int main(void) { int x; return 0; }"))
           "int main(void) { int x; return 0; }")
    = snd (check_code_on (fun _ => Parsed Samples.scenario_A) init_checker
             "int main(void) { int x; return 0; }")
        ++ added
    /\ forall x, In (EDeclVar (Some x)) (events Samples.scenario_A) ->
         count_occ string_dec added (undeclared_msg x) = 0.
Proof.
  exact (X10_checker_accumulates (fun _ => Parsed Samples.scenario_A)
           init_checker "int main(void) { int x; return 0; }"
           "int main(void) { int x; return 0; }"
           Samples.scenario_A Samples.scenario_A eq_refl eq_refl).
Defined.

(** ** X11: what the libclang walk does *)

Lemma traverse_each_outcome (cs : list cursor) :
  Forall
    (fun c => forall errs,
       traverse_ast errs c
       = if has_unresolved_ref c
         then Raised display_name_error else Returned errs) cs ->
  forall errs,
    (fix traverse_each (errors : list string) (cs : list cursor) {struct cs}
       : outcome (list string) :=
       match cs with
       | [] => Returned errors
       | child :: cs' =>
           match traverse_ast errors child with
           | Returned errors' => traverse_each errors' cs'
           | Raised e => Raised e
           end
       end) errs cs
    = if (fix any (cs : list cursor) {struct cs} : bool :=
            match cs with
            | [] => false
            | child :: cs' => has_unresolved_ref child || any cs'
            end) cs
      then Raised display_name_error else Returned errs.
Proof.
  induction 1 as [|c cs Hc _ IH]; intro errs; [reflexivity|].
  rewrite Hc. destruct (has_unresolved_ref c); [reflexivity|].
  cbn [orb]. apply IH.
Qed.

Lemma traverse_ast_outcome (c : cursor) : forall errs,
  traverse_ast errs c
  = if has_unresolved_ref c then Raised display_name_error else Returned errs.
Proof.
  induction c as [kind referenced children IH] using cursor_ind; intro errs.
  cbn [traverse_ast has_unresolved_ref].
  destruct kind as [|name]; [destruct referenced as [decl|]|];
    try reflexivity; apply (traverse_each_outcome children IH).
Qed.

(** X11.  The libclang walk never appends a line.  On a tree in which every
    [DECL_REF_EXPR] cursor has a referenced declaration it returns the list
    it was given, unchanged; on a tree that holds one without a referenced
    declaration it raises the [AttributeError] for [display_name], whatever
    the list holds. *)
Theorem X11_traverse_ast_returns_input_or_raises (errs : list string)
    (c : cursor) :
  traverse_ast errs c
  = (if has_unresolved_ref c then Raised display_name_error else Returned errs)
  /\ (forall errs', traverse_ast errs c = Returned errs' ->
        errs' = errs /\ has_unresolved_ref c = false)
  /\ (forall e, traverse_ast errs c = Raised e ->
        e = display_name_error /\ has_unresolved_ref c = true).
Proof.
  pose proof (traverse_ast_outcome c errs) as H.
  split; [exact H|].
  destruct (has_unresolved_ref c); rewrite H; split.
  - intros errs' E. discriminate E.
  - intros e [= <-]. split; reflexivity.
  - intros errs' [= <-]. split; reflexivity.
  - intros e E. discriminate E.
Qed.

(** ** X12 and X13: the run of [analyze_new.py] *)

Lemma pass_calls_map_Printed (lines : list string) :
  filter is_pass_call (map Printed lines) = [].
Proof. induction lines as [|line lines IH]; [reflexivity | exact IH]. Qed.

(** X12.  Once preprocessing completes, the run calls the pycparser pass on
    the preprocessed text and then the libclang pass on the file itself,
    each once and in this order, whatever either pass finds and whether or
    not the libclang pass raises. *)
Theorem X12_passes_called_in_order
    (subprocess_run : list string -> run_result)
    (parse : string -> parse_result)
    (libclang_parse : string -> list string -> clang_result)
    (c_file code : string) :
  subprocess_run ("clang" :: clang_flags c_file include_dirs) = Completed code ->
  filter is_pass_call
    (fst (analyze_code subprocess_run parse libclang_parse c_file))
  = [Called_check_code code; Called_clang_analysis c_file].
Proof.
  intro Hpre. unfold analyze_code, preprocess_code, clang_analysis.
  rewrite Hpre.
  cbn -[print_each check_code traverse_ast nl append filter].
  rewrite (print_section_log "No issues found by pycparser.").
  destruct (libclang_parse c_file ["-Wall"; "-fsyntax-only"]) as [root|e];
    [destruct (traverse_ast [] root) as [external|e]|].
  - cbn -[print_each check_code traverse_ast nl append filter].
    rewrite (print_section_log "No issues found by Clang.").
    cbn -[print_each check_code traverse_ast nl append filter].
    repeat (progress cbn [filter is_pass_call app] || rewrite filter_app
            || rewrite pass_calls_map_Printed).
    reflexivity.
  - cbn -[print_each check_code traverse_ast nl append filter].
    repeat (progress cbn [filter is_pass_call app] || rewrite filter_app
            || rewrite pass_calls_map_Printed).
    reflexivity.
  - cbn -[print_each check_code traverse_ast nl append filter].
    repeat (progress cbn [filter is_pass_call app] || rewrite filter_app
            || rewrite pass_calls_map_Printed).
    reflexivity.
Qed.

Lemma X12_passes_called_in_order_witness :
  filter is_pass_call
    (fst (analyze_code TwoFindings.subprocess_run TwoFindings.parse
            (fun _ _ => ClangException "LibclangError") "t.c"))
  = [Called_check_code TwoFindings.code; Called_clang_analysis "t.c"].
Proof.
  exact (X12_passes_called_in_order TwoFindings.subprocess_run
           TwoFindings.parse (fun _ _ => ClangException "LibclangError")
           "t.c" TwoFindings.code eq_refl).
Defined.

Lemma analyze_code_outcome
    (subprocess_run : list string -> run_result)
    (parse : string -> parse_result)
    (libclang_parse : string -> list string -> clang_result)
    (c_file : string) :
  snd (analyze_code subprocess_run parse libclang_parse c_file)
  = match subprocess_run ("clang" :: clang_flags c_file include_dirs) with
    | Completed _ =>
        match libclang_parse c_file ["-Wall"; "-fsyntax-only"] with
        | TranslationUnit root =>
            if has_unresolved_ref root
            then Raised display_name_error else Returned tt
        | ClangException e => Raised e
        end
    | CalledProcessError _ => Returned tt
    | OtherException e => Raised e
    end.
Proof.
  unfold analyze_code, preprocess_code, clang_analysis.
  destruct (subprocess_run ("clang" :: clang_flags c_file include_dirs))
    as [code|stderr|e]; [|reflexivity|reflexivity].
  cbn -[print_each check_code traverse_ast nl append].
  rewrite (print_section_log "No issues found by pycparser.").
  destruct (libclang_parse c_file ["-Wall"; "-fsyntax-only"]) as [root|e];
    [|reflexivity].
  rewrite traverse_ast_outcome.
  destruct (has_unresolved_ref root); [reflexivity|].
  cbn -[print_each check_code nl append].
  reflexivity.
Qed.

(** X13.  The run of [analyze_new.py] ends with an exception in three cases
    only: the preprocessor raises something other than a non-zero exit;
    preprocessing completes and libclang raises; or preprocessing completes
    and the tree of libclang holds a reference without a declaration, at
    which the walk raises the [AttributeError] for [display_name].  What
    the parser of pycparser does never ends the run, and neither does a
    wrong number of command-line arguments, for which [main] prints the
    usage line and returns. *)
Theorem X13_run_outcome
    (subprocess_run : list string -> run_result)
    (parse : string -> parse_result)
    (libclang_parse : string -> list string -> clang_result)
    (argv : list string) :
  snd (main subprocess_run parse libclang_parse argv)
  = match argv with
    | [_; c_file] =>
        match subprocess_run ("clang" :: clang_flags c_file include_dirs) with
        | Completed _ =>
            match libclang_parse c_file ["-Wall"; "-fsyntax-only"] with
            | TranslationUnit root =>
                if has_unresolved_ref root
                then Raised display_name_error else Returned tt
            | ClangException e => Raised e
            end
        | CalledProcessError _ => Returned tt
        | OtherException e => Raised e
        end
    | _ => Returned tt
    end.
Proof.
  destruct argv as [|script [|c_file [|extra argv]]]; try reflexivity.
  apply analyze_code_outcome.
Qed.

(** ** X14 to X17: the run of [test2.py] *)

Section Test2Facts.
Variable read_file : string -> outcome string.
Variable parse : string -> parse_result.
Variable popen_read : string -> outcome string.

Lemma test2_pycparser_analysis_log (file_path : string) :
  exists verdict,
    Test2.pycparser_analysis read_file parse file_path
    = ([Printed verdict], Returned tt).
Proof.
  unfold Test2.pycparser_analysis.
  destruct (read_file file_path) as [code|e]; [|eexists; reflexivity].
  destruct (parse code) as [ast|e]; eexists; reflexivity.
Qed.

Lemma test2_clang_analysis_log (file_path : string) :
  exists semantic,
    Test2.clang_analysis popen_read file_path
    = (map Printed semantic, Returned tt)
    /\ (List.length semantic = 1 \/ List.length semantic = 2).
Proof.
  unfold Test2.clang_analysis.
  destruct (popen_read (Test2.clang_command file_path)) as [[|c result]|e].
  - exists [" Semantic Check: No errors found."]. split; [reflexivity | now left].
  - exists [" Semantic Check Errors:"; String c result].
    split; [reflexivity | now right].
  - exists [("Error running clang: " ++ e)%string].
    split; [reflexivity | now left].
Qed.

Lemma test2_analyze_code_log (c_file : string) :
  exists verdict semantic,
    Test2.analyze_code read_file parse popen_read c_file
    = ( map Printed
          ([ ("Analyzing: " ++ c_file ++ nl)%string;
             "Checking for lexical and syntax errors using pycparser:";
             verdict;
             (nl ++ "Checking for semantic errors using clang:")%string ]
           ++ semantic),
        Returned tt )
    /\ (List.length semantic = 1 \/ List.length semantic = 2).
Proof.
  destruct (test2_pycparser_analysis_log c_file) as [verdict Ev].
  destruct (test2_clang_analysis_log c_file) as [semantic [Es Hl]].
  exists verdict, semantic. split; [|exact Hl].
  unfold Test2.analyze_code. rewrite Ev, Es. reflexivity.
Qed.

End Test2Facts.

(** X14.  The run of [test2.py] never ends with an exception, whatever
    reading the file, the parser and the [clang] command do: it prints its
    two headings, one verdict line of the syntax check, the heading of the
    semantic check, and one or two lines of the semantic check.  A failed
    syntax check does not keep the semantic check from running. *)
Theorem X14_test2_run_always_returns
    (read_file : string -> outcome string)
    (parse : string -> parse_result)
    (popen_read : string -> outcome string)
    (c_file : string) :
  snd (Test2.analyze_code read_file parse popen_read c_file) = Returned tt
  /\ exists verdict semantic,
       printed (fst (Test2.analyze_code read_file parse popen_read c_file))
       = [ ("Analyzing: " ++ c_file ++ nl)%string;
           "Checking for lexical and syntax errors using pycparser:";
           verdict;
           (nl ++ "Checking for semantic errors using clang:")%string ]
         ++ semantic
       /\ (List.length semantic = 1 \/ List.length semantic = 2).
Proof.
  destruct (test2_analyze_code_log read_file parse popen_read c_file)
    as [verdict [semantic [E Hl]]].
  rewrite E. split; [reflexivity|].
  exists verdict, semantic. split; [|exact Hl].
  cbn [fst]. apply printed_map_Print.
Qed.

(** X15.  The syntax check of [test2.py] prints that no errors were found
    exactly when the file could be read and its text parses.  When reading
    the file raises, it prints one error line with the text of that
    exception; when the file is read and the parser raises, it prints one
    error line with the text of the parser's exception.  It returns in
    every case. *)
Theorem X15_test2_syntax_verdict
    (read_file : string -> outcome string)
    (parse : string -> parse_result)
    (file_path : string) :
  (Test2.pycparser_analysis read_file parse file_path
   = ([Printed " Lexical and Syntax Check: No errors found."], Returned tt)
   <-> exists code ast,
         read_file file_path = Returned code /\ parse code = Parsed ast)
  /\ (forall e,
        read_file file_path = Raised e ->
        Test2.pycparser_analysis read_file parse file_path
        = ([Printed (" Lexical/Syntax Error: " ++ e)], Returned tt))
  /\ (forall code e,
        read_file file_path = Returned code ->
        parse code = ParseError e ->
        Test2.pycparser_analysis read_file parse file_path
        = ([Printed (" Lexical/Syntax Error: " ++ e)], Returned tt)).
Proof.
  unfold Test2.pycparser_analysis. split; [split|split].
  - destruct (read_file file_path) as [code|e].
    + destruct (parse code) as [ast|e] eqn:P.
      * intros _. exists code, ast. split; [reflexivity | exact P].
      * intro H. cbn in H. discriminate H.
    + intro H. cbn in H. discriminate H.
  - intros [code [ast [-> ->]]]. reflexivity.
  - intros e ->. reflexivity.
  - intros code e -> ->. reflexivity.
Qed.

(** X16.  The semantic check of [test2.py] prints that no errors were found
    exactly when the [clang] command could be run and wrote nothing to its
    standard output. *)
Theorem X16_test2_semantic_verdict
    (popen_read : string -> outcome string) (file_path : string) :
  Test2.clang_analysis popen_read file_path
  = ([Printed " Semantic Check: No errors found."], Returned tt)
  <-> popen_read (Test2.clang_command file_path) = Returned EmptyString.
Proof.
  unfold Test2.clang_analysis. split.
  - destruct (popen_read (Test2.clang_command file_path)) as [[|c result]|e].
    + reflexivity.
    + intro H. cbn in H. discriminate H.
    + intro H. cbn in H. discriminate H.
  - intros ->. reflexivity.
Qed.

(** X17.  [test2.py] exits with status 1, after the usage line, exactly
    when it is not given one argument; with one argument it runs the two
    checks and returns. *)
Theorem X17_test2_main_exit
    (read_file : string -> outcome string)
    (parse : string -> parse_result)
    (popen_read : string -> outcome string)
    (argv : list string) :
  Test2.main read_file parse popen_read argv
  = match argv with
    | [_; c_file] =>
        (fst (Test2.analyze_code read_file parse popen_read c_file),
         Returned tt)
    | _ => ([Printed "Usage: python test.py <file_path>"], Raised "SystemExit: 1")
    end.
Proof.
  destruct argv as [|script [|c_file [|extra argv]]]; try reflexivity.
  unfold Test2.main.
  destruct (test2_analyze_code_log read_file parse popen_read c_file)
    as [verdict [semantic [E _]]].
  rewrite E. reflexivity.
Qed.
